(** * blogger2hugomd: the Blogger-export to Markdown importer of [script.js]

    A shallow embedding of [script.js] and the properties its specification
    states about it.

    JavaScript strings are modelled as [string], a sequence of code units;
    the model covers the code units 0..255 (Latin-1), on which the string
    methods the script calls ([replace], [trim], [toLowerCase], [includes],
    [split]) are defined as ECMAScript defines them.  The packages the script
    requires ([sanitize-filename], [turndown], [xml2js], [path], [fs]) are
    collaborators: the script is modelled over an arbitrary environment
    [Env] that provides them, and [Node.env] is one concrete environment. *)

From Stdlib Require Import String Ascii List Bool Arith Lia DecimalString.
From stdpp Require Import gmap strings.

(** ** JavaScript string operations *)

Module JSString.

Definition nl : ascii := "010"%char.
Definition dquote : ascii := "034"%char.
Definition squote : ascii := "'"%char.
Definition hyphen : ascii := "-"%char.

Definition str1 (c : ascii) : string := String c EmptyString.

(** [s.replace(/[class]/g, repl)]: every code unit of the class is
    replaced on its own. *)
Fixpoint replace_chars (p : ascii -> bool) (repl : string) (s : string) : string :=
  match s with
  | EmptyString => EmptyString
  | String c s' =>
      if p c then repl +:+ replace_chars p repl s'
      else String c (replace_chars p repl s')
  end.

(** Length of the longest prefix of [s] made of code units of the class:
    what a greedy [[class]*] consumes at the start of [s]. *)
Fixpoint run_length (p : ascii -> bool) (s : string) : nat :=
  match s with
  | EmptyString => 0
  | String c s' => if p c then S (run_length p s') else 0
  end.

(** The scanner of [s.replace(/[class]{n,}/g, repl)] for [1 <= n]: at each
    position the greedy quantifier takes the whole run; when the run has at
    least [n] code units it is replaced by [repl] and the scan resumes after
    it ([skip] counts the code units of the match still to step over),
    otherwise the code unit is copied and the scan moves on by one. *)
Fixpoint replace_scan (n : nat) (p : ascii -> bool) (repl : string)
         (skip : nat) (s : string) : string :=
  match s with
  | EmptyString => EmptyString
  | String c s' =>
      match skip with
      | S k => replace_scan n p repl k s'
      | O =>
          let run := run_length p s in
          if n <=? run
          then repl +:+ replace_scan n p repl (run - 1) s'
          else String c (replace_scan n p repl 0 s')
      end
  end.

Definition replace_runs (n : nat) (p : ascii -> bool) (repl s : string) : string :=
  replace_scan n p repl 0 s.

(** ECMAScript WhiteSpace and LineTerminator code units below 256:
    TAB, LF, VT, FF, CR, SP and NBSP. *)
Definition is_space (c : ascii) : bool :=
  let n := nat_of_ascii c in
  ((9 <=? n) && (n <=? 13)) || (n =? 32) || (n =? 160).

(** [s.replace(/^[class]+/, '')] and [s.replace(/[class]+$/, '')] *)
Fixpoint drop_start (p : ascii -> bool) (s : string) : string :=
  match s with
  | EmptyString => EmptyString
  | String c s' => if p c then drop_start p s' else s
  end.

Fixpoint drop_end (p : ascii -> bool) (s : string) : string :=
  match s with
  | EmptyString => EmptyString
  | String c s' =>
      match drop_end p s' with
      | EmptyString => if p c then EmptyString else str1 c
      | r => String c r
      end
  end.

Definition trim (s : string) : string := drop_end is_space (drop_start is_space s).

(** Letters with a lowercase mapping below 256: A-Z, and U+00C0-U+00DE
    except the multiplication sign U+00D7. *)
Definition is_upper (c : ascii) : bool :=
  let n := nat_of_ascii c in
  ((65 <=? n) && (n <=? 90)) ||
  ((192 <=? n) && (n <=? 222) && negb (n =? 215)).

Definition lower_char (c : ascii) : ascii :=
  if is_upper c then ascii_of_nat (nat_of_ascii c + 32) else c.

Fixpoint toLowerCase (s : string) : string :=
  match s with
  | EmptyString => EmptyString
  | String c s' => String (lower_char c) (toLowerCase s')
  end.

(** [s.includes(needle)] *)
Fixpoint includes (needle s : string) : bool :=
  if String.prefix needle s then true
  else match s with
       | EmptyString => false
       | String _ s' => includes needle s'
       end.

(** [s.split(sep).pop()]: the segment after the last separator. *)
Fixpoint last_segment_from (sep : ascii) (acc s : string) : string :=
  match s with
  | EmptyString => acc
  | String c s' =>
      if Ascii.eqb c sep then last_segment_from sep EmptyString s'
      else last_segment_from sep (acc +:+ str1 c) s'
  end.

Definition split_pop (sep : ascii) (s : string) : string :=
  last_segment_from sep EmptyString s.

(** [arr.join(sep)] *)
Fixpoint join (sep : string) (l : list string) : string :=
  match l with
  | [] => EmptyString
  | [x] => x
  | x :: rest => x +:+ sep +:+ join sep rest
  end.

(** [String(n)] for a non-negative integer. *)
Definition of_nat (n : nat) : string := NilZero.string_of_uint (Nat.to_uint n).

Fixpoint all_chars (p : ascii -> bool) (s : string) : bool :=
  match s with
  | EmptyString => true
  | String c s' => p c && all_chars p s'
  end.

(** Occurrence of a code unit *)
Fixpoint str_In (c : ascii) (s : string) : Prop :=
  match s with
  | EmptyString => False
  | String c' s' => c' = c \/ str_In c s'
  end.

End JSString.
Import JSString.

Definition NL : string := str1 nl.
Definition DQ : string := str1 dquote.

(** ** Data model: the document [xml2js] hands to the script *)

(** One [category] element; [term] is [cat.$.term]. *)
Record Category := { term : string }.

(** One [entry] of the feed, with the properties the script reads:
    [entry.id[0]], [entry.title[0]['_']], [entry.published[0]],
    [entry['thr:in-reply-to']] (truthy whenever the element is present),
    [entry['app:control']?.[0]?.['app:draft']?.[0]],
    [entry.content?.[0]?.['_']] and [entry.category].  [None] is
    JavaScript's [undefined]. *)
Record Entry := {
  entry_id : string;
  entry_title : option string;
  entry_published : string;
  entry_in_reply_to : option string;
  entry_app_draft : option string;
  entry_content : option string;
  entry_category : option (list Category)
}.

(** Outcome of [parser.parseStringPromise(data)]: a rejection, or a document
    of which the script reads [result.feed?.entry]. *)
Inductive ParseResult :=
| ParseFailure (msg : string)
| Parsed (feed_entry : option (list Entry)).

(** ** Collaborators *)

(** What the script takes from its packages and from the machine it runs on:
    [sanitize] is [require('sanitize-filename')], [turndown] is
    [tds.turndown], [parseString] is [xml2js]'s parser, [path_join] is
    [path.join], [dirname] is [__dirname]; [mkdir_ok] and [writable] tell
    whether [fs.promises.mkdir] and a write to a path succeed. *)
Record Env := {
  sanitize : string -> string;
  turndown : string -> string;
  parseString : string -> ParseResult;
  path_join : string -> string -> string;
  dirname : string;
  mkdir_ok : string -> bool;
  writable : string -> bool
}.

(** ** The process: files, the [stats] accumulator, and what was done *)

Inductive Event :=
| ConsoleLog (msg : string)
| ConsoleError (msg : string)
| FsReadFile (path : string)
| FsMkdir (path : string)
| FsWriteFile (path content : string) (ok : bool)
| FsWriteFileSync (path content : string) (ok : bool).

Record World := {
  files : gmap string string;
  stats_posts : list (string * string);
  events : list Event;
  exited : option nat
}.

(** The state of the process when [script.js] starts: [stats.posts] is the
    empty array. *)
Definition boot (fs : gmap string string) : World :=
  {| files := fs; stats_posts := []; events := []; exited := None |}.

Definition exit_status (w : World) : nat :=
  match exited w with Some c => c | None => 0 end.

(** A computation returns a value or throws; either way the world moves. *)
Inductive Result (A : Type) :=
| Ok (a : A)
| Throw (err : string).
Arguments Ok {A} a.
Arguments Throw {A} err.

Definition M (A : Type) : Type := World -> Result A * World.

#[global] Instance M_ret : MRet M := fun A a w => (Ok a, w).
#[global] Instance M_bind : MBind M := fun A B k m w =>
  match m w with
  | (Ok a, w') => k a w'
  | (Throw e, w') => (Throw e, w')
  end.

Definition throw {A} (err : string) : M A := fun w => (Throw err, w).

(** [try { m } catch (err) { h err }] *)
Definition try_catch {A} (m : M A) (h : string -> M A) : M A := fun w =>
  match m w with
  | (Ok a, w') => (Ok a, w')
  | (Throw e, w') => h e w'
  end.

Definition emit (ev : Event) : M unit := fun w =>
  (Ok tt, {| files := files w; stats_posts := stats_posts w;
             events := events w ++ [ev]; exited := exited w |}).

Definition console_log (msg : string) : M unit := emit (ConsoleLog msg).
Definition console_error (msg : string) : M unit := emit (ConsoleError msg).

Definition process_exit (code : nat) : M unit := fun w =>
  (Ok tt, {| files := files w; stats_posts := stats_posts w;
             events := events w; exited := Some code |}).

(** [stats.posts.push(p)] *)
Definition stats_push (p : string * string) : M unit := fun w =>
  (Ok tt, {| files := files w; stats_posts := stats_posts w ++ [p];
             events := events w; exited := exited w |}).

Definition stats_length : M nat := fun w => (Ok (length (stats_posts w)), w).

Definition fs_readFile (path : string) : M string := fun w =>
  match emit (FsReadFile path) w with
  | (_, w') =>
      match files w !! path with
      | Some data => (Ok data, w')
      | None => (Throw ("ENOENT: no such file or directory, open " +:+ path), w')
      end
  end.

Definition fs_mkdir (env : Env) (dir : string) : M unit := fun w =>
  match emit (FsMkdir dir) w with
  | (_, w') =>
      if mkdir_ok env dir then (Ok tt, w')
      else (Throw ("EACCES: permission denied, mkdir " +:+ dir), w')
  end.

(** A write through one of the two calls the script uses; [ev] records the
    call, the path, the data and whether it succeeded. *)
Definition fs_write (ev : string -> string -> bool -> Event)
           (env : Env) (path content : string) : M unit := fun w =>
  if writable env path then
    (Ok tt, {| files := <[path := content]> (files w);
               stats_posts := stats_posts w;
               events := events w ++ [ev path content true];
               exited := exited w |})
  else
    (Throw ("EACCES: permission denied, open " +:+ path),
     {| files := files w; stats_posts := stats_posts w;
        events := events w ++ [ev path content false];
        exited := exited w |}).

(** [fs.promises.writeFile] and [fs.writeFileSync] *)
Definition fs_writeFile : Env -> string -> string -> M unit := fs_write FsWriteFile.
Definition fs_writeFileSync : Env -> string -> string -> M unit := fs_write FsWriteFileSync.

(** [for (const x of l) { body x }] *)
Fixpoint forEach {A} (l : list A) (body : A -> M unit) : M unit :=
  match l with
  | [] => mret tt
  | x :: rest => body x ;; forEach rest body
  end.

(** ** The script *)

Module Script.

Definition usage : string := "Usage: node script.js <BACKUP XML> <OUTPUT DIR> [m|s]".

Definition kind_post : string := "http://schemas.google.com/blogger/2008/kind#post".

(** The character class of the first [replace] of [getFileName]: the
    nine code units less-than, greater-than, colon, double quote, slash,
    backslash, bar, question mark and star. *)
Definition invalid_char (c : ascii) : bool :=
  existsb (Ascii.eqb c)
    ["<"%char; ">"%char; ":"%char; dquote; "/"%char; "\"%char; "|"%char;
     "?"%char; "*"%char].

Definition is_hyphen (c : ascii) : bool := Ascii.eqb c hyphen.
Definition is_squote (c : ascii) : bool := Ascii.eqb c squote.

(** The four steps [getFileName] applies to what [sanitize] returns. *)
Definition normalize (s : string) : string :=
  toLowerCase
    (trim
       (replace_runs 2 is_hyphen "-"
          (replace_runs 1 invalid_char "-" s))).

Definition getFileName (env : Env) (text : string) : string :=
  normalize (sanitize env text).

Definition extractTags (entry : Entry) : list string :=
  match entry_category entry with
  | Some category =>
      List.map term
        (List.filter (fun cat => negb (String.eqb (term cat) kind_post)) category)
  | None => []
  end.

(** [a || b] on an optional string: [undefined] and [''] are falsy. *)
Definition or_else (a : option string) (b : string) : string :=
  match a with
  | Some EmptyString | None => b
  | Some s => s
  end.

(** The filter of [contents]. *)
Definition isPost (entry : Entry) : bool :=
  includes ".post-" (entry_id entry) &&
  negb (bool_decide (is_Some (entry_in_reply_to entry))).

(** [t.replace(/'/g, ...)] with two single quotes as the replacement *)
Definition escape (t : string) : string := replace_chars is_squote "''" t.

(** The variables of the loop as functions of the entry.  [displayTitle] is
    [title]: the text of [entry.title[0]] with every single quote replaced by
    two, or ['Untitled'] when that is falsy; [isDraft] is [draft], [bodyHtml]
    is [content], [fileContent] is what is handed to [writeToFile]. *)
Definition displayTitle (entry : Entry) : string :=
  or_else (escape <$> entry_title entry) "Untitled".

Definition isDraft (entry : Entry) : bool :=
  bool_decide (entry_app_draft entry = Some "yes"%string).

Definition bodyHtml (entry : Entry) : string :=
  or_else (entry_content entry) "".

Definition bool_text (b : bool) : string := if b then "true" else "false".

(** The template of [tagsField] *)
Definition tagsField (tags : list string) : string :=
  match tags with
  | [] => ""
  | _ => "tags: [" +:+ join ", " (List.map (fun tag => "'" +:+ tag +:+ "'") tags)
         +:+ "]" +:+ NL
  end.

Definition fileHeader (entry : Entry) : string :=
  "---" +:+ NL +:+
  "title: '" +:+ displayTitle entry +:+ "'" +:+ NL +:+
  "date: " +:+ entry_published entry +:+ NL +:+
  "draft: " +:+ bool_text (isDraft entry) +:+ NL +:+
  tagsField (extractTags entry) +:+ "---".

Definition fileContent (env : Env) (entry : Entry) : string :=
  fileHeader entry +:+ NL +:+ NL +:+ turndown env (bodyHtml entry).

Definition unusable (sanitizedTitle : string) : bool :=
  String.eqb sanitizedTitle "" || String.eqb sanitizedTitle "-".

Definition ensureDirectoryExists (env : Env) (dir : string) : M unit :=
  try_catch (fs_mkdir env dir)
    (fun err => console_error ("Error creating directory " +:+ dir +:+ ": " +:+ err)).

Definition writeToFile (env : Env) (filename content : string) : M unit :=
  try_catch
    (fs_writeFile env filename content ;;
     console_log ("Successfully written to " +:+ filename))
    (fun err => console_error ("Error writing to " +:+ filename +:+ ": " +:+ err)).

(** [JSON.stringify({ totalPosts: n }, null, 2)] *)
Definition summary_json (totalPosts : nat) : string :=
  "{" +:+ NL +:+ "  " +:+ DQ +:+ "totalPosts" +:+ DQ +:+ ": "
      +:+ of_nat totalPosts +:+ NL +:+ "}".

Definition summary_path (env : Env) : string :=
  path_join env (dirname env) "migration-summary.json".

Definition writeSummary (env : Env) : M unit :=
  totalPosts ← stats_length;
  fs_writeFileSync env (summary_path env) (summary_json totalPosts).

Definition outputPath (env : Env) (outputDir : string) (entry : Entry) : string :=
  path_join env outputDir (getFileName env (displayTitle entry) +:+ ".md").

(** The body of the [for] loop of [bloggerImport], statement by statement. *)
Definition processPost (env : Env) (outputDir : string) (entry : Entry) : M unit :=
  let title := or_else (escape <$> entry_title entry) "Untitled" in
  let postId := split_pop hyphen (entry_id entry) in
  stats_push (title, postId) ;;
  let published := entry_published entry in
  let draft := bool_decide (entry_app_draft entry = Some "yes"%string) in
  let sanitizedTitle := getFileName env title in
  console_log ("Sanitized title: " +:+ sanitizedTitle) ;;
  if unusable sanitizedTitle then
    console_error ("Invalid filename for title: " +:+ title +:+ ". Skipping post.")
  else
    let content := or_else (entry_content entry) "" in
    let markdown := turndown env content in
    let tags := extractTags entry in
    let tagsField := tagsField tags in
    let fileHeader :=
      "---" +:+ NL +:+ "title: '" +:+ title +:+ "'" +:+ NL +:+
      "date: " +:+ published +:+ NL +:+
      "draft: " +:+ bool_text draft +:+ NL +:+ tagsField +:+ "---" in
    let fname := path_join env outputDir (sanitizedTitle +:+ ".md") in
    writeToFile env fname (fileHeader +:+ NL +:+ NL +:+ markdown).

Definition parse (env : Env) (data : string) : M (option (list Entry)) :=
  match parseString env data with
  | ParseFailure msg => throw msg
  | Parsed feed_entry => mret feed_entry
  end.

Definition bloggerImport (env : Env) (backupXmlFile outputDir : string) : M unit :=
  try_catch
    (data ← fs_readFile backupXmlFile;
     feed_entry ← parse env data;
     match feed_entry with
     | None => throw "Invalid Blogger export file"
     | Some contents =>
         let posts := List.filter isPost contents in
         console_log ("Found " +:+ of_nat (length posts) +:+ " posts") ;;
         ensureDirectoryExists env outputDir ;;
         forEach posts (processPost env outputDir) ;;
         writeSummary env
     end)
    (fun err =>
       console_error ("Error processing Blogger export: " +:+ err) ;;
       process_exit 1).

(** The top level of the script, run on [process.argv]. *)
Definition main (env : Env) (argv : list string) : M unit :=
  if length argv <? 4 then
    console_log usage ;; process_exit 1
  else
    bloggerImport env (nth 2 argv ""%string) (nth 3 argv ""%string).

Definition run (env : Env) (argv : list string) (fs : gmap string string) : World :=
  snd (main env argv (boot fs)).

(** The calls a run made to the file system. *)
Definition is_fs_event (ev : Event) : bool :=
  match ev with
  | FsReadFile _ | FsMkdir _ | FsWriteFile _ _ _ | FsWriteFileSync _ _ _ => true
  | ConsoleLog _ | ConsoleError _ => false
  end.

(** The Markdown files a run wrote: the successful calls of
    [fs.promises.writeFile], in order, as path and data. *)
Definition written_by (ev : Event) : option (string * string) :=
  match ev with
  | FsWriteFile path content true => Some (path, content)
  | _ => None
  end.

Definition written (w : World) : list (string * string) :=
  omap written_by (events w).

(** The summaries a run handed to [fs.writeFileSync]. *)
Definition summary_by (ev : Event) : option (string * string) :=
  match ev with
  | FsWriteFileSync path content _ => Some (path, content)
  | _ => None
  end.

Definition summaries (w : World) : list (string * string) :=
  omap summary_by (events w).

(** What one turn of the loop does, spelled out: the entry pushed on
    [stats.posts], the console and file-system events, and the files. *)
Definition post_stat (entry : Entry) : string * string :=
  (displayTitle entry, split_pop hyphen (entry_id entry)).

Definition post_events (env : Env) (outputDir : string) (entry : Entry) : list Event :=
  let name := getFileName env (displayTitle entry) in
  let fname := outputPath env outputDir entry in
  ConsoleLog ("Sanitized title: " +:+ name) ::
  (if unusable name then
     [ConsoleError ("Invalid filename for title: " +:+ displayTitle entry
                    +:+ ". Skipping post.")]
   else if writable env fname then
     [FsWriteFile fname (fileContent env entry) true;
      ConsoleLog ("Successfully written to " +:+ fname)]
   else
     [FsWriteFile fname (fileContent env entry) false;
      ConsoleError ("Error writing to " +:+ fname +:+ ": "
                    +:+ "EACCES: permission denied, open " +:+ fname)]).

Definition post_files (env : Env) (outputDir : string) (entry : Entry)
           (fs : gmap string string) : gmap string string :=
  let fname := outputPath env outputDir entry in
  if unusable (getFileName env (displayTitle entry)) then fs
  else if writable env fname then <[fname := fileContent env entry]> fs
  else fs.

Definition after_post (env : Env) (outputDir : string) (w : World) (entry : Entry) : World :=
  {| files := post_files env outputDir entry (files w);
     stats_posts := stats_posts w ++ [post_stat entry];
     events := events w ++ post_events env outputDir entry;
     exited := exited w |}.

End Script.
Import Script.

(** ** One concrete environment *)

(** The [sanitize-filename] package (1.6), called with no options: the
    replacement is the empty string. *)
Module SanitizeFilename.

Definition illegal (c : ascii) : bool :=
  existsb (Ascii.eqb c)
    ["/"%char; "?"%char; "<"%char; ">"%char; "\"%char; ":"%char; "*"%char;
     "|"%char; dquote].

(** Code units 0x00-0x1f and 0x80-0x9f *)
Definition control (c : ascii) : bool :=
  let n := nat_of_ascii c in
  (n <=? 31) || ((128 <=? n) && (n <=? 159)).

Definition is_dot (c : ascii) : bool := Ascii.eqb c "."%char.
Definition dot_or_space (c : ascii) : bool := is_dot c || Ascii.eqb c " "%char.
Definition line_end (c : ascii) : bool := Ascii.eqb c nl || Ascii.eqb c "013"%char.

(** A name made of dots only *)
Definition reserved (s : string) : bool :=
  negb (String.eqb s "") && all_chars is_dot s.

Definition windows_names : list string :=
  ["con"; "prn"; "aux"; "nul"] ++
  List.map (fun d => "com" +:+ str1 d) (list_ascii_of_string "0123456789") ++
  List.map (fun d => "lpt" +:+ str1 d) (list_ascii_of_string "0123456789").

(** The rest of a name after a device name: nothing, or a dot and then
    anything up to the end, line ends excluded. *)
Definition extension (rest : string) : bool :=
  match rest with
  | EmptyString => true
  | String c rest' => is_dot c && all_chars (fun x => negb (line_end x)) rest'
  end.

(** A device name of Windows, in any case, with any extension *)
Definition windows_reserved (s : string) : bool :=
  let l := toLowerCase s in
  existsb (fun name =>
             String.prefix name l &&
             extension (String.substring (String.length name)
                          (String.length l - String.length name) l))
          windows_names.

(** UTF-8 length of a code unit below 256 *)
Definition utf8_length (c : ascii) : nat :=
  if nat_of_ascii c <? 128 then 1 else 2.

(** [truncate-utf8-bytes]: the longest prefix of at most [budget] bytes *)
Fixpoint truncate (budget : nat) (s : string) : string :=
  match s with
  | EmptyString => EmptyString
  | String c s' =>
      if utf8_length c <=? budget
      then String c (truncate (budget - utf8_length c) s')
      else EmptyString
  end.

Definition sanitize (input : string) : string :=
  let s1 := replace_chars illegal "" input in
  let s2 := replace_chars control "" s1 in
  let s3 := if reserved s2 then ""%string else s2 in
  let s4 := if windows_reserved s3 then ""%string else s3 in
  let s5 := drop_end dot_or_space s4 in
  truncate 255 s5.

End SanitizeFilename.

Module Node.

(** [path.join(dir, name)] for a normalized, non-empty [dir] without a
    trailing slash and a [name] without slashes or dot segments. *)
Definition join_paths (dir name : string) : string := dir +:+ "/" +:+ name.

(** [tds.turndown] on bodies that are plain text with nothing Markdown
    escapes: the text itself. *)
Definition plain_text (html : string) : string := html.

(** Node with the packages of the script, an XML parser that reads the
    document [doc] out of any input, and a disk on which the paths of
    [readonly] cannot be written. *)
Definition env (doc : ParseResult) (readonly : list string) : Env :=
  {| sanitize := SanitizeFilename.sanitize;
     turndown := plain_text;
     parseString := fun _ => doc;
     path_join := join_paths;
     dirname := "/opt/blogger2hugomd";
     mkdir_ok := fun _ => true;
     writable := fun path => negb (existsb (String.eqb path) readonly) |}.

End Node.

(** ** Sample entries *)

Module Sample.

Definition post (id : string) (title : option string) : Entry :=
  {| entry_id := id;
     entry_title := title;
     entry_published := "2020-01-02T03:04:05.000-08:00";
     entry_in_reply_to := None;
     entry_app_draft := None;
     entry_content := Some "Hello"%string;
     entry_category := Some [ {| term := kind_post |}; {| term := "travel" |} ] |}.

Definition comment (id : string) (parent : string) : Entry :=
  {| entry_id := id;
     entry_title := Some "A comment"%string;
     entry_published := "2020-01-03T00:00:00.000-08:00";
     entry_in_reply_to := Some parent;
     entry_app_draft := None;
     entry_content := Some "Nice"%string;
     entry_category := None |}.

Definition argv : list string :=
  ["node"; "script.js"; "export.xml"; "out"]%string.

Definition disk : gmap string string := {[ "export.xml"%string := "<feed/>"%string ]}.

End Sample.

(** ** Vocabulary of the statements *)

(** The replacement of runs seen as one left-to-right pass with a flag
    that tells whether the previous code unit was of the class. *)
Fixpoint squeeze (p : ascii -> bool) (repl : string) (in_run : bool) (s : string)
  : string :=
  match s with
  | EmptyString => EmptyString
  | String c s' =>
      if p c then (if in_run then squeeze p repl true s'
                    else repl +:+ squeeze p repl true s')
      else String c (squeeze p repl false s')
  end.

(** The first code unit of a string is of the class. *)
Definition starts (q : ascii -> bool) (s : string) : bool :=
  match s with
  | EmptyString => false
  | String c _ => q c
  end.

(** No two neighbouring code units are both of the class. *)
Fixpoint no_adjacent (q : ascii -> bool) (s : string) : bool :=
  match s with
  | EmptyString => true
  | String c s' => negb (q c && starts q s') && no_adjacent q s'
  end.

Definition valid_char (c : ascii) : bool := negb (invalid_char c).

(** Every single quote doubled, every other code unit kept, as a list. *)
Definition double_quotes (l : list ascii) : list ascii :=
  flat_map (fun c => if Ascii.eqb c squote then [squote; squote] else [c]) l.

(** The Markdown files one turn of the loop writes. *)
Definition post_output (env : Env) (outputDir : string) (entry : Entry)
  : list (string * string) :=
  if unusable (getFileName env (displayTitle entry)) then []
  else if writable env (outputPath env outputDir entry)
       then [(outputPath env outputDir entry, fileContent env entry)]
       else [].

Definition mkdir_events (env : Env) (dir : string) : list Event :=
  FsMkdir dir ::
  (if mkdir_ok env dir then []
   else [ConsoleError ("Error creating directory " +:+ dir +:+ ": "
                       +:+ "EACCES: permission denied, mkdir " +:+ dir)]).

Definition summary_events (env : Env) (totalPosts : nat) : list Event :=
  let path := summary_path env in
  FsWriteFileSync path (summary_json totalPosts) (writable env path) ::
  (if writable env path then []
   else [ConsoleError ("Error processing Blogger export: "
                       +:+ "EACCES: permission denied, open " +:+ path)]).

Definition import_events (env : Env) (input outputDir : string) (posts : list Entry)
           (totalPosts : nat) : list Event :=
  [FsReadFile input; ConsoleLog ("Found " +:+ of_nat (length posts) +:+ " posts")]
  ++ mkdir_events env outputDir
  ++ flat_map (post_events env outputDir) posts
  ++ summary_events env totalPosts.

(** A run that cannot read the input, cannot parse it, or finds no
    [feed.entry] in it. *)
Definition feed_error (env : Env) (input : string) (fs : gmap string string) : Prop :=
  fs !! input = None \/
  (exists data msg, fs !! input = Some data /\ parseString env data = ParseFailure msg) \/
  (exists data, fs !! input = Some data /\ parseString env data = Parsed None).

(** The class the two [replace] calls of [getFileName] act on together. *)
Definition invalid_or_hyphen (c : ascii) : bool := invalid_char c || is_hyphen c.

(** The file-system call of one turn of the loop: none for an unusable
    name, else one [fs.promises.writeFile]. *)
Definition post_attempt (env : Env) (outputDir : string) (entry : Entry) : list Event :=
  if unusable (getFileName env (displayTitle entry)) then []
  else [FsWriteFile (outputPath env outputDir entry) (fileContent env entry)
          (writable env (outputPath env outputDir entry))].




(** ** Facts about the string operations *)

Section Runs.

Variable p : ascii -> bool.
Variable repl : string.

Lemma squeeze_flag (s : string) :
  run_length p s = 0 -> squeeze p repl true s = squeeze p repl false s.
Proof.
  destruct s as [|c s']; simpl; [reflexivity|].
  destruct (p c); [discriminate | reflexivity].
Qed.

Lemma replace_scan_squeeze (n : nat) :
  n = 1 \/ (n = 2 /\ forall c, p c = true -> repl = str1 c) ->
  forall s,
    replace_scan n p repl 0 s = squeeze p repl false s /\
    replace_scan n p repl (run_length p s) s = squeeze p repl true s.
Proof.
  intros Hn s. induction s as [|c s' [IH0 IHrun]]; [split; reflexivity|].
  assert (H0 : replace_scan n p repl 0 (String c s') = squeeze p repl false (String c s')).
  { simpl. destruct (p c) eqn:Hc.
    - destruct (n <=? S (run_length p s')) eqn:Hle.
      + replace (S (run_length p s') - 1) with (run_length p s') by lia.
        rewrite IHrun. reflexivity.
      + destruct Hn as [-> | [-> Hrepl]]; [discriminate|].
        apply Nat.leb_gt in Hle.
        assert (Hr : run_length p s' = 0) by lia.
        rewrite IH0, squeeze_flag by exact Hr.
        transitivity (str1 c +:+ squeeze p repl false s'); [reflexivity|].
        f_equal. symmetry. exact (Hrepl c Hc).
    - destruct n as [|n']; [destruct Hn as [? | [? _]]; discriminate|].
      simpl. rewrite IH0. reflexivity. }
  split; [exact H0|].
  simpl run_length. destruct (p c) eqn:Hc.
  - simpl. rewrite Hc. exact IHrun.
  - rewrite H0. simpl. rewrite Hc. reflexivity.
Qed.

End Runs.

Lemma replace_runs_plus (p : ascii -> bool) (repl s : string) :
  replace_runs 1 p repl s = squeeze p repl false s.
Proof. apply replace_scan_squeeze. left; reflexivity. Qed.

Lemma replace_runs_hyphens (s : string) :
  replace_runs 2 is_hyphen "-" s = squeeze is_hyphen "-" false s.
Proof.
  apply replace_scan_squeeze. right. split; [reflexivity|].
  intros c Hc. apply Ascii.eqb_eq in Hc. subst c. reflexivity.
Qed.

Lemma normalize_squeeze (s : string) :
  normalize s =
  toLowerCase (trim (squeeze is_hyphen "-" false (squeeze invalid_char "-" false s))).
Proof. unfold normalize. rewrite replace_runs_plus, replace_runs_hyphens. reflexivity. Qed.

Lemma no_adjacent_cons (q : ascii -> bool) (c : ascii) (s : string) :
  no_adjacent q (String c s) = negb (q c && starts q s) && no_adjacent q s.
Proof. reflexivity. Qed.

Lemma all_chars_In (q : ascii -> bool) (s : string) :
  all_chars q s = true <-> forall c, str_In c s -> q c = true.
Proof.
  induction s as [|a s' IH]; simpl.
  - split; [intros _ c [] | reflexivity].
  - rewrite andb_true_iff, IH. split.
    + intros [Ha Hs] c [<- | Hc]; auto.
    + intros H. split; [apply H; left; reflexivity | intros c Hc; apply H; right; exact Hc].
Qed.

Lemma no_adjacent_substring (q : ascii -> bool) (c d : ascii) (s : string) :
  q c = true -> q d = true -> no_adjacent q s = true ->
  ~ exists a b, s = a +:+ String c (String d b).
Proof.
  intros Hc Hd Hs [a [b ->]]. induction a as [|x a' IH]; simpl in Hs.
  - rewrite Hc, Hd in Hs. discriminate.
  - apply andb_true_iff in Hs. apply IH, Hs.
Qed.

Ltac each_code_unit c :=
  destruct c as [[] [] [] [] [] [] [] []]; vm_compute; reflexivity.

Lemma lower_char_invalid (c : ascii) : invalid_char (lower_char c) = invalid_char c.
Proof. each_code_unit c. Qed.

Lemma lower_char_hyphen (c : ascii) : is_hyphen (lower_char c) = is_hyphen c.
Proof. each_code_unit c. Qed.


Lemma lower_char_not_upper (c : ascii) : is_upper (lower_char c) = false.
Proof. each_code_unit c. Qed.

Lemma lower_char_fixed (c : ascii) : is_upper c = false -> lower_char c = c.
Proof. unfold lower_char. intros ->. reflexivity. Qed.

Section Classes.

Variable q : ascii -> bool.

Lemma all_chars_squeeze (p : ascii -> bool) (b : bool) (s : string) :
  q hyphen = true ->
  (forall c, str_In c s -> p c = false -> q c = true) ->
  all_chars q (squeeze p "-" b s) = true.
Proof.
  intros Hh. revert b. induction s as [|c s' IH]; intros b Hs; simpl; [reflexivity|].
  assert (Hs' : forall x, str_In x s' -> p x = false -> q x = true).
  { intros x Hx. apply Hs. right. exact Hx. }
  destruct (p c) eqn:Hc.
  - destruct b; simpl; [|fold hyphen; rewrite Hh]; apply IH; exact Hs'.
  - simpl. rewrite (Hs c (or_introl eq_refl) Hc). apply IH; exact Hs'.
Qed.

Lemma all_chars_drop_start (r : ascii -> bool) (s : string) :
  all_chars q s = true -> all_chars q (drop_start r s) = true.
Proof.
  induction s as [|c s' IH]; simpl; [reflexivity|].
  intros H. destruct (r c); [|exact H].
  apply andb_true_iff in H. apply IH, H.
Qed.

Lemma all_chars_drop_end (r : ascii -> bool) (s : string) :
  all_chars q s = true -> all_chars q (drop_end r s) = true.
Proof.
  induction s as [|c s' IH]; simpl; [reflexivity|].
  intros H. apply andb_true_iff in H. destruct H as [Hc Hs].
  specialize (IH Hs). destruct (drop_end r s') as [|d t].
  - destruct (r c); simpl; [reflexivity | rewrite Hc; reflexivity].
  - change (all_chars q (String c (String d t))) with (q c && all_chars q (String d t)).
    rewrite Hc, IH. reflexivity.
Qed.

Lemma all_chars_toLowerCase (s : string) :
  (forall c, q (lower_char c) = q c) ->
  all_chars q (toLowerCase s) = all_chars q s.
Proof.
  intros Hq. induction s as [|c s' IH]; simpl; [reflexivity|].
  rewrite Hq, IH. reflexivity.
Qed.

Lemma drop_end_starts (r : ascii -> bool) (s : string) (d : ascii) (t : string) :
  drop_end r s = String d t -> starts q s = q d.
Proof.
  destruct s as [|c s']; simpl; [discriminate|].
  destruct (drop_end r s'); [destruct (r c)|]; intros H; inversion H; reflexivity.
Qed.

Lemma no_adjacent_drop_start (r : ascii -> bool) (s : string) :
  no_adjacent q s = true -> no_adjacent q (drop_start r s) = true.
Proof.
  induction s as [|c s' IH]; simpl; [reflexivity|].
  intros H. destruct (r c); [|exact H].
  apply andb_true_iff in H. apply IH, H.
Qed.

Lemma no_adjacent_drop_end (r : ascii -> bool) (s : string) :
  no_adjacent q s = true -> no_adjacent q (drop_end r s) = true.
Proof.
  induction s as [|c s' IH]; simpl; [reflexivity|].
  intros H. apply andb_true_iff in H. destruct H as [Hc Hs].
  specialize (IH Hs). destruct (drop_end r s') as [|d t] eqn:Hd.
  - destruct (r c); simpl; [reflexivity|]. rewrite andb_false_r. reflexivity.
  - change (no_adjacent q (String c (String d t)))
      with (negb (q c && q d) && no_adjacent q (String d t)).
    rewrite <- (drop_end_starts r s' d t Hd), Hc, IH. reflexivity.
Qed.

Lemma starts_toLowerCase (s : string) :
  (forall c, q (lower_char c) = q c) ->
  starts q (toLowerCase s) = starts q s.
Proof. intros Hq. destruct s; simpl; [reflexivity | apply Hq]. Qed.

Lemma no_adjacent_toLowerCase (s : string) :
  (forall c, q (lower_char c) = q c) ->
  no_adjacent q (toLowerCase s) = no_adjacent q s.
Proof.
  intros Hq. induction s as [|c s' IH]; simpl; [reflexivity|].
  rewrite Hq, IH, (starts_toLowerCase s' Hq). reflexivity.
Qed.

End Classes.

Lemma squeeze_hyphens_apart (b : bool) (s : string) :
  no_adjacent is_hyphen (squeeze is_hyphen "-" b s) = true /\
  (b = true -> starts is_hyphen (squeeze is_hyphen "-" b s) = false).
Proof.
  revert b. induction s as [|c s' IH]; intros b; [split; reflexivity|].
  cbn [squeeze]. destruct (is_hyphen c) eqn:Hc.
  - destruct b.
    + apply IH.
    + destruct (IH true) as [Hn Hs]. split; [|discriminate].
      change ("-" +:+ squeeze is_hyphen "-" true s')
        with (String hyphen (squeeze is_hyphen "-" true s')).
      rewrite no_adjacent_cons, (Hs eq_refl), Hn. reflexivity.
  - rewrite no_adjacent_cons. cbn [starts]. rewrite Hc.
    destruct (IH false) as [Hn _]. rewrite Hn. split; reflexivity.
Qed.

Lemma normalize_valid (s : string) : all_chars valid_char (normalize s) = true.
Proof.
  rewrite normalize_squeeze.
  rewrite all_chars_toLowerCase
    by (intros c; unfold valid_char; rewrite lower_char_invalid; reflexivity).
  apply all_chars_drop_end, all_chars_drop_start.
  apply all_chars_squeeze; [reflexivity|].
  intros c Hc _. revert c Hc. apply all_chars_In.
  apply all_chars_squeeze; [reflexivity|].
  intros c _ Hc. unfold valid_char. rewrite Hc. reflexivity.
Qed.

Lemma normalize_hyphens_apart (s : string) :
  no_adjacent is_hyphen (normalize s) = true.
Proof.
  rewrite normalize_squeeze, no_adjacent_toLowerCase by apply lower_char_hyphen.
  apply no_adjacent_drop_end, no_adjacent_drop_start, squeeze_hyphens_apart.
Qed.

Lemma toLowerCase_not_upper (s : string) :
  all_chars (fun c => negb (is_upper c)) (toLowerCase s) = true.
Proof.
  induction s as [|c s' IH]; simpl; [reflexivity|].
  rewrite lower_char_not_upper, IH. reflexivity.
Qed.

Lemma toLowerCase_idempotent (s : string) :
  toLowerCase (toLowerCase s) = toLowerCase s.
Proof.
  induction s as [|c s' IH]; simpl; [reflexivity|].
  rewrite IH, (lower_char_fixed _ (lower_char_not_upper c)). reflexivity.
Qed.

(** ** Facts about the run *)

Lemma world_eta (w : World) :
  {| files := files w; stats_posts := stats_posts w;
     events := events w; exited := exited w |} = w.
Proof. destruct w; reflexivity. Qed.

Lemma processPost_unfold (env : Env) (outputDir : string) (entry : Entry) :
  processPost env outputDir entry =
  (stats_push (post_stat entry) ;;
   console_log ("Sanitized title: " +:+ getFileName env (displayTitle entry)) ;;
   if unusable (getFileName env (displayTitle entry)) then
     console_error ("Invalid filename for title: " +:+ displayTitle entry
                    +:+ ". Skipping post.")
   else
     writeToFile env (outputPath env outputDir entry) (fileContent env entry)).
Proof. reflexivity. Qed.

Lemma processPost_run (env : Env) (outputDir : string) (entry : Entry) (w : World) :
  processPost env outputDir entry w = (Ok tt, after_post env outputDir w entry).
Proof.
  rewrite processPost_unfold. unfold after_post, post_events, post_files.
  unfold mbind, M_bind, stats_push, console_log, console_error, emit; simpl.
  destruct (unusable (getFileName env (displayTitle entry))); simpl.
  - rewrite <- app_assoc. reflexivity.
  - unfold writeToFile, try_catch, fs_writeFile, fs_write, mbind, M_bind,
      console_log, console_error, emit; simpl.
    destruct (writable env _); simpl; rewrite <- !app_assoc; reflexivity.
Qed.

Lemma forEach_processPost (env : Env) (outputDir : string) (posts : list Entry) (w : World) :
  forEach posts (processPost env outputDir) w =
  (Ok tt, fold_left (after_post env outputDir) posts w).
Proof.
  revert w. induction posts as [|e rest IH]; intros w; simpl; [reflexivity|].
  unfold mbind, M_bind. rewrite processPost_run. apply IH.
Qed.

Lemma fold_after_post (env : Env) (outputDir : string) (posts : list Entry) (w : World) :
  fold_left (after_post env outputDir) posts w =
  {| files := fold_left (fun fs e => post_files env outputDir e fs) posts (files w);
     stats_posts := stats_posts w ++ List.map post_stat posts;
     events := events w ++ flat_map (post_events env outputDir) posts;
     exited := exited w |}.
Proof.
  revert w. induction posts as [|e rest IH]; intros w; simpl.
  - rewrite !app_nil_r. symmetry. apply world_eta.
  - rewrite IH. simpl. rewrite <- !app_assoc. reflexivity.
Qed.

Lemma bloggerImport_feed (env : Env) (input outputDir data : string)
      (contents : list Entry) (w : World) :
  files w !! input = Some data ->
  parseString env data = Parsed (Some contents) ->
  let posts := List.filter isPost contents in
  let total := length (stats_posts w) + length posts in
  let w' := snd (bloggerImport env input outputDir w) in
  fst (bloggerImport env input outputDir w) = Ok tt /\
  stats_posts w' = stats_posts w ++ List.map post_stat posts /\
  events w' = events w ++ import_events env input outputDir posts total /\
  exited w' = (if writable env (summary_path env) then exited w else Some 1) /\
  files w' =
    (if writable env (summary_path env)
     then <[summary_path env := summary_json total]>
     else fun fs => fs)
      (fold_left (fun fs e => post_files env outputDir e fs) posts (files w)).
Proof.
  intros Hread Hparse posts total w'. subst w'.
  unfold bloggerImport, try_catch, mbind, M_bind, fs_readFile, emit, parse.
  simpl. rewrite Hread, Hparse. simpl.
  unfold mbind, M_bind, console_log, emit, ensureDirectoryExists, try_catch,
    fs_mkdir, emit, console_error. simpl.
  fold posts.
  assert (Hloop : forall w1,
    (let (r, w2) := forEach posts (processPost env outputDir) w1 in
     match r with
     | Ok _ => writeSummary env w2
     | Throw e => (Throw e, w2)
     end) = writeSummary env (fold_left (after_post env outputDir) posts w1)).
  { intros w1. rewrite forEach_processPost. reflexivity. }
  unfold import_events, mkdir_events, summary_events, total.
  destruct (mkdir_ok env outputDir); simpl; rewrite Hloop, fold_after_post;
    unfold writeSummary, mbind, M_bind, stats_length, fs_writeFileSync, fs_write; simpl;
    rewrite !length_app, !length_map;
    destruct (writable env (summary_path env)); simpl;
    rewrite <- ?app_assoc; simpl; rewrite <- ?app_assoc; auto.
Qed.

(** The promise of [bloggerImport] never rejects: the [catch] of the last
    line of the script has nothing to catch. *)
Lemma bloggerImport_returns (env : Env) (input outputDir : string) (w : World) :
  fst (bloggerImport env input outputDir w) = Ok tt.
Proof.
  unfold bloggerImport, try_catch, mbind, M_bind, fs_readFile, emit, parse.
  simpl. destruct (files w !! input) as [data|]; [|reflexivity].
  destruct (parseString env data) as [msg | [contents|]]; try reflexivity.
  simpl. unfold mbind, M_bind, console_log, emit, ensureDirectoryExists, try_catch,
    fs_mkdir, emit, console_error. simpl.
  destruct (mkdir_ok env outputDir); simpl; rewrite forEach_processPost;
    unfold writeSummary, mbind, M_bind, stats_length, fs_writeFileSync, fs_write;
    destruct (writable env (summary_path env)); reflexivity.
Qed.

(** ** The Filename Sanitizer *)

(** C2.  Whatever the title and whatever [sanitize-filename] returns for it,
    the name [getFileName] produces holds none of the nine characters
    less-than, greater-than, colon, double quote, slash, backslash, bar,
    question mark and star, holds no two hyphens in a row, and holds no
    uppercase letter (it is its own lowercase form). *)
Theorem C2_getFileName_safe (env : Env) (text : string) :
  let name := getFileName env text in
  (forall c, str_In c name -> invalid_char c = false) /\
  (~ exists a b, name = a +:+ "--" +:+ b) /\
  (forall c, str_In c name -> is_upper c = false) /\
  toLowerCase name = name.
Proof.
  unfold getFileName. set (s := sanitize env text).
  split; [|split; [|split]].
  - intros c Hc.
    pose proof (proj1 (all_chars_In valid_char _) (normalize_valid s) c Hc) as H.
    unfold valid_char in H. destruct (invalid_char c); [discriminate | reflexivity].
  - apply (no_adjacent_substring is_hyphen hyphen hyphen); try reflexivity.
    apply normalize_hyphens_apart.
  - intros c Hc. unfold normalize in Hc.
    pose proof (proj1 (all_chars_In _ _) (toLowerCase_not_upper _) c Hc) as H.
    cbv beta in H. destruct (is_upper c); [discriminate | reflexivity].
  - unfold normalize. apply toLowerCase_idempotent.
Qed.

Lemma C2_getFileName_safe_witness :
  let name := getFileName (Node.env (ParseFailure "") []) "  <Draft>: A--B?  " in
  name = "draft a-b"%string /\
  (forall c, str_In c name -> invalid_char c = false) /\
  (~ exists a b, name = a +:+ "--" +:+ b) /\
  (forall c, str_In c name -> is_upper c = false) /\
  toLowerCase name = name.
Proof.
  split; [vm_compute; reflexivity|].
  apply (C2_getFileName_safe (Node.env (ParseFailure "") []) "  <Draft>: A--B?  ").
Defined.

(** ** One turn of the loop *)

Lemma append_assoc (a b c : string) : (a +:+ b) +:+ c = a +:+ b +:+ c.
Proof.
  induction a as [|x a' IH]; [reflexivity|].
  change (String x ((a' +:+ b) +:+ c) = String x (a' +:+ b +:+ c)).
  f_equal. exact IH.
Qed.

Lemma unusable_iff (name : string) :
  unusable name = true <-> name = ""%string \/ name = "-"%string.
Proof.
  unfold unusable. rewrite orb_true_iff, !String.eqb_eq. reflexivity.
Qed.

Lemma written_app (w : World) (evs : list Event) (w' : World) :
  events w' = events w ++ evs -> written w' = written w ++ omap written_by evs.
Proof. unfold written. intros ->. apply omap_app. Qed.

Lemma processPost_usable (env : Env) (outputDir : string) (entry : Entry) (w : World) :
  unusable (getFileName env (displayTitle entry)) = false ->
  let path := outputPath env outputDir entry in
  let w' := snd (processPost env outputDir entry w) in
  exists report,
    events w' =
      events w ++
      [ConsoleLog ("Sanitized title: " +:+ getFileName env (displayTitle entry));
       FsWriteFile path (fileContent env entry) (writable env path);
       report] /\
    is_fs_event report = false /\
    files w' = (if writable env path
                then <[path := fileContent env entry]> (files w)
                else files w).
Proof.
  intros Hname path w'. subst w'. rewrite processPost_run.
  unfold after_post, post_events, post_files. simpl. rewrite Hname. fold path.
  destruct (writable env path); eexists; (split; [reflexivity|]); split; reflexivity.
Qed.

Lemma processPost_writes (env : Env) (outputDir : string) (entry : Entry) (w : World) :
  unusable (getFileName env (displayTitle entry)) = false ->
  In (FsWriteFile (outputPath env outputDir entry) (fileContent env entry)
        (writable env (outputPath env outputDir entry)))
     (events (snd (processPost env outputDir entry w))).
Proof.
  intros Hname.
  destruct (processPost_usable env outputDir entry w Hname) as (report & Hev & _).
  rewrite Hev. apply in_or_app. right. right. left. reflexivity.
Qed.

(** ** The Tag Extractor *)

Lemma filter_map_term (keep : string -> bool) (cats : list Category) :
  List.map term (List.filter (fun cat => keep (term cat)) cats) =
  List.filter keep (List.map term cats).
Proof.
  induction cats as [|cat rest IH]; simpl; [reflexivity|].
  destruct (keep (term cat)); simpl; rewrite IH; reflexivity.
Qed.

(** C5.  The tags of an entry are the terms of its categories, in their
    order and with their repetitions, without the terms equal to the reserved
    kind marker; an entry with no category field has no tags, and its
    front-matter is then the title, date and draft lines alone: in the
    header, and in the file the loop writes for it, no tags line stands
    between the draft line and the closing delimiter. *)
Theorem C5_extractTags (env : Env) (outputDir : string) (entry : Entry) (w : World) :
  (forall cats, entry_category entry = Some cats ->
     extractTags entry =
     List.filter (fun t => negb (String.eqb t kind_post)) (List.map term cats)) /\
  (entry_category entry = None ->
     extractTags entry = [] /\
     fileHeader entry =
       "---" +:+ NL +:+
       "title: '" +:+ displayTitle entry +:+ "'" +:+ NL +:+
       "date: " +:+ entry_published entry +:+ NL +:+
       "draft: " +:+ bool_text (isDraft entry) +:+ NL +:+
       "---" /\
     (unusable (getFileName env (displayTitle entry)) = false ->
      In (FsWriteFile (outputPath env outputDir entry)
            ("---" +:+ NL +:+
             "title: '" +:+ displayTitle entry +:+ "'" +:+ NL +:+
             "date: " +:+ entry_published entry +:+ NL +:+
             "draft: " +:+ bool_text (isDraft entry) +:+ NL +:+
             "---" +:+ NL +:+ NL +:+ turndown env (bodyHtml entry))
            (writable env (outputPath env outputDir entry)))
         (events (snd (processPost env outputDir entry w))))).
Proof.
  split.
  - unfold extractTags. intros cats ->.
    apply (filter_map_term (fun t => negb (String.eqb t kind_post))).
  - intros Hnone.
    assert (Htags : extractTags entry = []) by (unfold extractTags; rewrite Hnone; reflexivity).
    assert (Hheader : fileHeader entry =
              "---" +:+ NL +:+
              "title: '" +:+ displayTitle entry +:+ "'" +:+ NL +:+
              "date: " +:+ entry_published entry +:+ NL +:+
              "draft: " +:+ bool_text (isDraft entry) +:+ NL +:+
              "---") by (unfold fileHeader; rewrite Htags; reflexivity).
    split; [exact Htags|]. split; [exact Hheader|].
    intros Hname. pose proof (processPost_writes env outputDir entry w Hname) as Hin.
    unfold fileContent in Hin. rewrite Hheader, !append_assoc in Hin. exact Hin.
Qed.

Lemma C5_extractTags_witness :
  let env := Node.env (ParseFailure "") [] in
  extractTags (Sample.post ".post-1" None) = ["travel"%string] /\
  extractTags (Sample.comment ".post-2" "1") = [] /\
  fileHeader (Sample.comment ".post-2" "1") =
    "---" +:+ NL +:+ "title: 'A comment'" +:+ NL +:+
    "date: 2020-01-03T00:00:00.000-08:00" +:+ NL +:+ "draft: false" +:+ NL +:+ "---".
Proof.
  intros env.
  destruct (C5_extractTags env "out" (Sample.post ".post-1" None) (boot ∅)) as [Hsome _].
  destruct (C5_extractTags env "out" (Sample.comment ".post-2" "1") (boot ∅))
    as [_ Hnone].
  split; [exact (Hsome _ eq_refl)|].
  destruct (Hnone eq_refl) as (Htags & Hheader & _).
  split; [exact Htags | exact Hheader].
Defined.

(** ** The display title *)

Lemma escape_doubles (t : string) :
  list_ascii_of_string (escape t) = double_quotes (list_ascii_of_string t).
Proof.
  unfold escape. induction t as [|c t' IH]; [reflexivity|].
  change (double_quotes (list_ascii_of_string (String c t')))
    with ((if Ascii.eqb c squote then [squote; squote] else [c])
            ++ double_quotes (list_ascii_of_string t')).
  rewrite <- IH. cbn [replace_chars]. unfold is_squote at 1.
  destruct (Ascii.eqb c squote); reflexivity.
Qed.

Lemma escape_empty (t : string) : escape t = ""%string -> t = ""%string.
Proof.
  unfold escape. destruct t as [|x t']; simpl; [reflexivity|].
  destruct (is_squote x); discriminate.
Qed.

Lemma displayTitle_text (entry : Entry) (t : string) :
  entry_title entry = Some t -> t <> ""%string -> displayTitle entry = escape t.
Proof.
  intros Ht Hne. unfold displayTitle. rewrite Ht.
  change (or_else (Some (escape t)) "Untitled" = escape t).
  destruct (escape t) eqn:He; [|reflexivity].
  apply escape_empty in He. contradiction.
Qed.

Lemma displayTitle_no_text (entry : Entry) :
  entry_title entry = None \/ entry_title entry = Some ""%string ->
  displayTitle entry = "Untitled"%string.
Proof. unfold displayTitle. intros [-> | ->]; reflexivity. Qed.

(** C6.  The title of the front-matter is the text of the entry's title
    with every single quote doubled and every other character kept in place;
    an entry without title text gets the title Untitled.  In the file the
    loop writes for the Post it stands between single quotes on the title
    line, the line after the opening delimiter. *)
Theorem C6_display_title (env : Env) (outputDir : string) (entry : Entry) (w : World) :
  (forall t, entry_title entry = Some t -> t <> ""%string ->
     list_ascii_of_string (displayTitle entry) = double_quotes (list_ascii_of_string t)) /\
  (entry_title entry = None \/ entry_title entry = Some ""%string ->
     displayTitle entry = "Untitled"%string) /\
  (entry_title entry = Some "Cat's Diary"%string ->
     displayTitle entry = "Cat''s Diary"%string) /\
  (unusable (getFileName env (displayTitle entry)) = false ->
   exists rest,
     In (FsWriteFile (outputPath env outputDir entry)
           ("---" +:+ NL +:+ "title: '" +:+ displayTitle entry +:+ "'" +:+ NL +:+ rest)
           (writable env (outputPath env outputDir entry)))
        (events (snd (processPost env outputDir entry w)))).
Proof.
  split; [|split; [|split]].
  - intros t Ht Hne. rewrite (displayTitle_text entry t Ht Hne). apply escape_doubles.
  - apply displayTitle_no_text.
  - intros Ht. rewrite (displayTitle_text entry _ Ht); [reflexivity | discriminate].
  - intros Hname. pose proof (processPost_writes env outputDir entry w Hname) as Hin.
    unfold fileContent, fileHeader in Hin. rewrite !append_assoc in Hin.
    eexists. exact Hin.
Qed.

Lemma C6_display_title_witness :
  let env := Node.env (ParseFailure "") [] in
  displayTitle (Sample.post ".post-1" (Some "Cat's Diary"%string)) = "Cat''s Diary"%string /\
  displayTitle (Sample.post ".post-1" None) = "Untitled"%string.
Proof.
  intros env.
  destruct (C6_display_title env "out" (Sample.post ".post-1" (Some "Cat's Diary"%string))
              (boot ∅)) as (_ & _ & Hcat & _).
  destruct (C6_display_title env "out" (Sample.post ".post-1" None) (boot ∅))
    as (_ & Hnone & _).
  split; [exact (Hcat eq_refl) | exact (Hnone (or_introl eq_refl))].
Defined.

(** ** Doubled quotes pass through [normalize] *)

Lemma escape_cons (c : ascii) (t : string) :
  escape (String c t) =
  if is_squote c then String squote (String squote (escape t)) else String c (escape t).
Proof. unfold escape. cbn [replace_chars]. destruct (is_squote c); reflexivity. Qed.

Lemma is_squote_true (c : ascii) : is_squote c = true -> c = squote.
Proof. apply Ascii.eqb_eq. Qed.



Lemma escape_not_empty (d : ascii) (t : string) :
  exists x y, escape (String d t) = String x y.
Proof. rewrite escape_cons. destruct (is_squote d); eauto. Qed.




(** ** Posts that are skipped, Posts that are written *)

(** C3, as the code has it.  A Post whose title, as the loop holds it (quotes doubled, Untitled
    when there is no text), sanitizes to the empty string or to a single
    hyphen is classified as unusable: the turn of the loop logs the sanitized
    title and an error, calls the file system not at all, leaves every file
    as it was, does not throw, and the loop goes on with the Posts that
    follow. *)
Theorem C3_unusable_filename_skipped
        (env : Env) (outputDir : string) (entry : Entry) (rest : list Entry) (w : World) :
  getFileName env (displayTitle entry) = ""%string \/
  getFileName env (displayTitle entry) = "-"%string ->
  let w' := snd (processPost env outputDir entry w) in
  unusable (getFileName env (displayTitle entry)) = true /\
  fst (processPost env outputDir entry w) = Ok tt /\
  events w' =
    events w ++
    [ConsoleLog ("Sanitized title: " +:+ getFileName env (displayTitle entry));
     ConsoleError ("Invalid filename for title: " +:+ displayTitle entry
                   +:+ ". Skipping post.")] /\
  files w' = files w /\
  written w' = written w /\
  forEach (entry :: rest) (processPost env outputDir) w =
  forEach rest (processPost env outputDir) w'.
Proof.
  intros Hname w'. apply unusable_iff in Hname.
  assert (Hw : w' = after_post env outputDir w entry)
    by (subst w'; rewrite processPost_run; reflexivity).
  assert (Hev : events w' =
    events w ++
    [ConsoleLog ("Sanitized title: " +:+ getFileName env (displayTitle entry));
     ConsoleError ("Invalid filename for title: " +:+ displayTitle entry
                   +:+ ". Skipping post.")]).
  { rewrite Hw. unfold after_post, post_events. simpl. rewrite Hname. reflexivity. }
  split; [exact Hname|]. split; [rewrite processPost_run; reflexivity|].
  split; [exact Hev|]. split; [|split].
  - rewrite Hw. unfold after_post, post_files. simpl. rewrite Hname. reflexivity.
  - rewrite (written_app w _ w' Hev). simpl. apply app_nil_r.
  - cbn [forEach]. unfold mbind, M_bind. rewrite Hw, processPost_run. reflexivity.
Qed.

Lemma C3_unusable_filename_skipped_witness :
  let env := Node.env (ParseFailure "") [] in
  let entry := Sample.post ".post-1" (Some "---"%string) in
  let next := Sample.post ".post-2" (Some "Next"%string) in
  let w := boot ∅ in
  let w' := snd (processPost env "out" entry w) in
  getFileName env (displayTitle entry) = "-"%string /\
  written w' = [] /\
  List.map fst (written (snd (forEach [entry; next] (processPost env "out") w)))
  = ["out/next.md"%string].
Proof.
  intros env entry next w w'.
  assert (Hname : getFileName env (displayTitle entry) = "-"%string)
    by (vm_compute; reflexivity).
  destruct (C3_unusable_filename_skipped env "out" entry [next] w (or_intror Hname))
    as (_ & _ & _ & _ & Hwritten & Hloop).
  split; [exact Hname|]. split; [exact Hwritten|].
  rewrite Hloop. vm_compute. reflexivity.
Defined.

(** C3, with the title read as the title of the entry, fails: the empty
    title sanitizes to the empty string, yet the loop has replaced it by
    Untitled before it sanitizes, and writes the Post to untitled.md. *)
Lemma C3_counterexample :
  let env := Node.env (ParseFailure "") [] in
  let entry := Sample.post ".post-1" (Some ""%string) in
  let w' := snd (processPost env "out" entry (boot ∅)) in
  ~ (forall t, entry_title entry = Some t ->
       getFileName env t = ""%string \/ getFileName env t = "-"%string ->
       written w' = []).
Proof.
  intros env entry w' H.
  specialize (H ""%string eq_refl (or_introl eq_refl)).
  vm_compute in H. discriminate H.
Qed.

(** C7.  For a Post whose sanitized filename is usable the loop writes, to
    the Markdown path of the Post, a front-matter block between two lines of
    three hyphens that holds the title between single quotes, the date as the
    published timestamp stands in the feed, the draft flag as true or false
    (false when the control flag is absent, true only for the value yes) and,
    only when there are tags, one tags line; then a blank line; then the
    Markdown rendering of the body.  When the body is absent or empty and the
    renderer maps the empty input to the empty output, the file is the
    front-matter block, the blank line and nothing more. *)
Theorem C7_file_layout (env : Env) (outputDir : string) (entry : Entry) (w : World) :
  unusable (getFileName env (displayTitle entry)) = false ->
  let path := outputPath env outputDir entry in
  let w' := snd (processPost env outputDir entry w) in
  let layout (draft tags body : string) :=
    "---" +:+ NL +:+
    "title: '" +:+ displayTitle entry +:+ "'" +:+ NL +:+
    "date: " +:+ entry_published entry +:+ NL +:+
    "draft: " +:+ draft +:+ NL +:+
    tags +:+
    "---" +:+ NL +:+
    NL +:+
    body in
  exists draft tags,
    In (FsWriteFile path
          (layout draft tags (turndown env (bodyHtml entry)))
          (writable env path)) (events w') /\
    (writable env path = true ->
       files w' !! path = Some (layout draft tags (turndown env (bodyHtml entry))) /\
       written w' =
         written w ++ [(path, layout draft tags (turndown env (bodyHtml entry)))]) /\
    (draft = "true"%string /\ entry_app_draft entry = Some "yes"%string \/
     draft = "false"%string /\ entry_app_draft entry <> Some "yes"%string) /\
    (entry_app_draft entry = None -> draft = "false"%string) /\
    (tags = ""%string /\ extractTags entry = [] \/
     extractTags entry <> [] /\
     tags = "tags: [" +:+
            join ", " (List.map (fun tag => "'" +:+ tag +:+ "'") (extractTags entry))
            +:+ "]" +:+ NL) /\
    (entry_content entry = None \/ entry_content entry = Some ""%string ->
     turndown env "" = ""%string ->
     fileContent env entry = layout draft tags ""%string).
Proof.
  intros Hname path w' layout.
  destruct (processPost_usable env outputDir entry w Hname) as (report & Hev & Hrep & Hfiles).
  fold path in Hev, Hfiles. fold w' in Hev, Hfiles.
  exists (bool_text (isDraft entry)), (tagsField (extractTags entry)).
  assert (Hlayout : forall body,
            fileHeader entry +:+ NL +:+ NL +:+ body =
            layout (bool_text (isDraft entry)) (tagsField (extractTags entry)) body).
  { intros body. unfold fileHeader, layout. rewrite !append_assoc. reflexivity. }
  assert (Hcontent : fileContent env entry =
            layout (bool_text (isDraft entry)) (tagsField (extractTags entry))
                   (turndown env (bodyHtml entry))) by apply Hlayout.
  rewrite <- Hcontent.
  split; [rewrite Hev; apply in_or_app; right; right; left; reflexivity|].
  split.
  { intros Hw. rewrite Hw in Hfiles, Hev. split.
    - rewrite Hfiles. apply lookup_insert_eq.
    - rewrite (written_app w _ w' Hev). cbn [omap list_omap written_by].
      destruct report; try discriminate Hrep; reflexivity. }
  split.
  { unfold isDraft. destruct (bool_decide_reflect (entry_app_draft entry = Some "yes"%string));
      [left | right]; split; auto. }
  split.
  { intros Hnone. unfold isDraft. rewrite Hnone. reflexivity. }
  split.
  { unfold tagsField. destruct (extractTags entry) as [|t ts]; [left | right]; split;
      try reflexivity. discriminate. }
  intros Hbody Hturn. unfold fileContent.
  assert (Hhtml : bodyHtml entry = ""%string)
    by (unfold bodyHtml; destruct Hbody as [-> | ->]; reflexivity).
  rewrite Hhtml, Hturn. apply Hlayout.
Qed.

Lemma C7_file_layout_witness :
  let env := Node.env (ParseFailure "") [] in
  let entry := Sample.post ".post-1" (Some "Cat's Diary"%string) in
  let bare :=
    {| entry_id := ".post-2"; entry_title := Some "Bare"%string;
       entry_published := "2021-05-06T07:08:09.000Z";
       entry_in_reply_to := None; entry_app_draft := Some "yes"%string;
       entry_content := None; entry_category := None |} in
  files (snd (processPost env "out" entry (boot ∅))) !! "out/cat''s diary.md"%string =
  Some ("---" +:+ NL +:+ "title: 'Cat''s Diary'" +:+ NL +:+
        "date: 2020-01-02T03:04:05.000-08:00" +:+ NL +:+
        "draft: false" +:+ NL +:+
        "tags: ['travel']" +:+ NL +:+
        "---" +:+ NL +:+ NL +:+ "Hello") /\
  fileContent env bare =
    "---" +:+ NL +:+ "title: 'Bare'" +:+ NL +:+
    "date: 2021-05-06T07:08:09.000Z" +:+ NL +:+
    "draft: true" +:+ NL +:+
    "---" +:+ NL +:+ NL.
Proof.
  intros env entry bare.
  assert (Hname : unusable (getFileName env (displayTitle entry)) = false)
    by (vm_compute; reflexivity).
  assert (Hbare : unusable (getFileName env (displayTitle bare)) = false)
    by (vm_compute; reflexivity).
  destruct (C7_file_layout env "out" entry (boot ∅) Hname)
    as (draft & tags & _ & Hwrite & Hdraft & _ & Htags & _).
  destruct (C7_file_layout env "out" bare (boot ∅) Hbare)
    as (draft' & tags' & _ & _ & Hdraft' & _ & Htags' & Hempty).
  split.
  - destruct (Hwrite eq_refl) as [Hfile _].
    destruct Hdraft as [[_ Hyes] | [-> _]]; [discriminate Hyes|].
    destruct Htags as [[_ Hno] | [_ ->]]; [discriminate Hno|].
    exact Hfile.
  - rewrite (Hempty (or_introl eq_refl) eq_refl).
    destruct Hdraft' as [[-> _] | [_ Hno]]; [|contradiction Hno; reflexivity].
    destruct Htags' as [[-> _] | [Hsome _]]; [|contradiction Hsome; reflexivity].
    reflexivity.
Defined.

(** ** [sanitize-filename] and escaped titles *)

Lemma append_empty_r (s : string) : s +:+ "" = s.
Proof.
  induction s as [|c s' IH]; [reflexivity|].
  change (String c (s' +:+ "") = String c s'). f_equal. exact IH.
Qed.

Lemma prefix_app (a s : string) :
  String.prefix a s = true <-> exists b, s = a +:+ b.
Proof.
  revert s. induction a as [|x a' IH]; intros s.
  - destruct s; (split; [intros _; eexists; reflexivity | reflexivity]).
  - destruct s as [|y s'].
    + split; [discriminate | intros [b Hb]; discriminate Hb].
    + cbn [String.prefix]. destruct (ascii_dec x y) as [-> | Hne].
      * rewrite IH. split; intros [b Hb]; exists b.
        -- rewrite Hb. reflexivity.
        -- change (String y s' = String y (a' +:+ b)) in Hb. congruence.
      * split; [discriminate|]. intros [b Hb].
        change (String y s' = String x (a' +:+ b)) in Hb. congruence.
Qed.

























(** ** A whole run *)

Lemma run_import (env : Env) (node script input outputDir : string) (more : list string)
      (fs : gmap string string) :
  run env (node :: script :: input :: outputDir :: more) fs =
  snd (bloggerImport env input outputDir (boot fs)).
Proof. reflexivity. Qed.

Lemma post_events_written (env : Env) (outputDir : string) (entry : Entry) :
  omap written_by (post_events env outputDir entry) = post_output env outputDir entry.
Proof.
  unfold post_events, post_output.
  destruct (unusable _); [reflexivity|]. destruct (writable env _); reflexivity.
Qed.

Lemma post_events_summaries (env : Env) (outputDir : string) (entry : Entry) :
  omap summary_by (post_events env outputDir entry) = [].
Proof.
  unfold post_events.
  destruct (unusable _); [reflexivity|]. destruct (writable env _); reflexivity.
Qed.

Lemma omap_flat_map {A B C} (f : B -> option C) (g : A -> list B) (l : list A) :
  omap f (flat_map g l) = flat_map (fun x => omap f (g x)) l.
Proof.
  induction l as [|x l' IH]; simpl; [reflexivity|].
  rewrite omap_app, IH. reflexivity.
Qed.

Lemma flat_map_ext_eq {A B} (f g : A -> list B) (l : list A) :
  (forall x, f x = g x) -> flat_map f l = flat_map g l.
Proof. intros H. induction l as [|x l' IH]; simpl; [|rewrite H, IH]; reflexivity. Qed.

Lemma flat_map_nil {A B} (l : list A) : flat_map (fun _ => @nil B) l = [].
Proof. induction l; simpl; auto. Qed.

Lemma run_feed (env : Env) (node script input outputDir data : string)
      (more : list string) (contents : list Entry) (fs : gmap string string) :
  fs !! input = Some data ->
  parseString env data = Parsed (Some contents) ->
  let posts := List.filter isPost contents in
  let w := run env (node :: script :: input :: outputDir :: more) fs in
  stats_posts w = List.map post_stat posts /\
  written w = flat_map (post_output env outputDir) posts /\
  summaries w = [(summary_path env, summary_json (length posts))] /\
  exited w = (if writable env (summary_path env) then None else Some 1).
Proof.
  intros Hread Hparse posts w. subst w. rewrite run_import.
  destruct (bloggerImport_feed env input outputDir data contents (boot fs) Hread Hparse)
    as (_ & Hstats & Hev & Hexit & _).
  fold posts in Hstats, Hev. simpl in Hstats, Hev, Hexit.
  split; [exact Hstats|]. split; [|split; [|exact Hexit]].
  - unfold written. rewrite Hev. unfold import_events, mkdir_events, summary_events.
    rewrite !omap_app, omap_flat_map.
    rewrite (flat_map_ext_eq _ _ posts (post_events_written env outputDir)).
    destruct (mkdir_ok env outputDir), (writable env (summary_path env)); simpl;
      rewrite app_nil_r; reflexivity.
  - unfold summaries. rewrite Hev. unfold import_events, mkdir_events, summary_events.
    rewrite !omap_app, omap_flat_map.
    rewrite (flat_map_ext_eq _ _ posts (post_events_summaries env outputDir)), flat_map_nil.
    destruct (mkdir_ok env outputDir), (writable env (summary_path env)); reflexivity.
Qed.

Lemma run_feed_error (env : Env) (node script input outputDir : string)
      (more : list string) (fs : gmap string string) :
  feed_error env input fs ->
  let w := run env (node :: script :: input :: outputDir :: more) fs in
  exists msg,
    events w = [FsReadFile input; ConsoleError ("Error processing Blogger export: " +:+ msg)] /\
    exited w = Some 1 /\ files w = fs /\ stats_posts w = [].
Proof.
  intros Herr w. subst w. rewrite run_import.
  unfold bloggerImport, try_catch, mbind, M_bind, fs_readFile, emit, parse,
    console_error, process_exit, emit, throw.
  destruct Herr as [Hread | [(data & msg & Hread & Hparse) | (data & Hread & Hparse)]];
    simpl; rewrite Hread; simpl; try rewrite Hparse; simpl; eexists; repeat split.
Qed.

Lemma post_output_length (env : Env) (outputDir : string) (entry : Entry) :
  length (post_output env outputDir entry) <= 1 /\
  (unusable (getFileName env (displayTitle entry)) = true ->
   length (post_output env outputDir entry) = 0).
Proof.
  unfold post_output. destruct (unusable _); [split; simpl; [lia | reflexivity]|].
  destruct (writable env _); simpl; split; try lia; discriminate.
Qed.

Lemma outputs_length (env : Env) (outputDir : string) (posts : list Entry) :
  length (flat_map (post_output env outputDir) posts) <= length posts /\
  (forall e, In e posts -> unusable (getFileName env (displayTitle e)) = true ->
     length (flat_map (post_output env outputDir) posts) < length posts).
Proof.
  induction posts as [|x rest [IHle IHlt]]; simpl; [split; [lia | intros e []]|].
  rewrite length_app.
  destruct (post_output_length env outputDir x) as [Hle Hzero].
  split; [lia|]. intros e [<- | He] Hun.
  - rewrite (Hzero Hun). lia.
  - specialize (IHlt e He Hun). lia.
Qed.

(** C4.  The summary handed to [writeFileSync] carries, as totalPosts, the
    number of entries the filter classified as Posts: each turn of the loop
    pushes its Post on [stats.posts] before it looks at the sanitized
    filename, so a Post skipped for an unusable filename is counted, and a
    run with such a Post reports more Posts than it wrote files. *)
Theorem C4_totalPosts_counts_classified
        (env : Env) (node script input outputDir data : string)
        (contents : list Entry) (fs : gmap string string) :
  fs !! input = Some data ->
  parseString env data = Parsed (Some contents) ->
  let posts := List.filter isPost contents in
  let w := run env [node; script; input; outputDir] fs in
  summaries w = [(summary_path env, summary_json (length posts))] /\
  length (stats_posts w) = length posts /\
  (forall e w0,
     stats_posts (snd (processPost env outputDir e w0)) = stats_posts w0 ++ [post_stat e]) /\
  length (written w) <= length posts /\
  (forall e, In e posts -> unusable (getFileName env (displayTitle e)) = true ->
     length (written w) < length posts).
Proof.
  intros Hread Hparse posts w.
  destruct (run_feed env node script input outputDir data [] contents fs Hread Hparse)
    as (Hstats & Hwritten & Hsummary & _).
  fold posts in Hstats, Hwritten, Hsummary. fold w in Hstats, Hwritten, Hsummary.
  split; [exact Hsummary|].
  split; [rewrite Hstats; apply length_map|].
  split; [intros e w0; rewrite processPost_run; reflexivity|].
  rewrite Hwritten. apply outputs_length.
Qed.

Lemma C4_totalPosts_counts_classified_witness :
  let skipped := Sample.post "tag:blogger.com,1999:blog-7.post-123" (Some "???"%string) in
  let kept := Sample.post "tag:blogger.com,1999:blog-7.post-124" (Some "Kept"%string) in
  let env := Node.env (Parsed (Some [skipped; kept])) [] in
  let w := run env Sample.argv Sample.disk in
  summaries w = [("/opt/blogger2hugomd/migration-summary.json"%string, summary_json 2)] /\
  length (written w) < 2.
Proof.
  intros skipped kept env w.
  destruct (C4_totalPosts_counts_classified env "node" "script.js" "export.xml" "out"
              "<feed/>" [skipped; kept] Sample.disk eq_refl eq_refl)
    as (Hsummary & _ & _ & _ & Hless).
  split; [exact Hsummary|].
  apply (Hless skipped); [left; reflexivity | vm_compute; reflexivity].
Defined.

(** C1, as the code has it.  Of the three entries A (identifier .post-123, no
    reply-to), B (identifier .post-456, with a reply-to) and C (identifier
    .page-789) the filter keeps A alone, and the summary says totalPosts 1.
    The run writes one Markdown file, the one of A, when the title of A
    sanitizes to a usable filename and the write succeeds; it writes none
    otherwise. *)
Theorem C1_three_entries
        (env : Env) (node script input outputDir data reply : string)
        (A B C : Entry) (fs : gmap string string) :
  entry_id A = ".post-123"%string -> entry_in_reply_to A = None ->
  entry_id B = ".post-456"%string -> entry_in_reply_to B = Some reply ->
  entry_id C = ".page-789"%string ->
  fs !! input = Some data ->
  parseString env data = Parsed (Some [A; B; C]) ->
  let w := run env [node; script; input; outputDir] fs in
  List.filter isPost [A; B; C] = [A] /\
  summaries w = [(summary_path env, summary_json 1)] /\
  written w =
    (if unusable (getFileName env (displayTitle A)) then []
     else if writable env (outputPath env outputDir A)
          then [(outputPath env outputDir A, fileContent env A)]
          else []) /\
  (unusable (getFileName env (displayTitle A)) = false ->
   writable env (outputPath env outputDir A) = true ->
   length (written w) = 1).
Proof.
  intros HA HAr HB HBr HC Hread Hparse w.
  assert (Hposts : List.filter isPost [A; B; C] = [A]).
  { unfold isPost. cbn [List.filter]. rewrite HA, HAr, HB, HBr, HC. reflexivity. }
  destruct (run_feed env node script input outputDir data [] [A; B; C] fs Hread Hparse)
    as (_ & Hwritten & Hsummary & _).
  fold w in Hwritten, Hsummary. rewrite Hposts in Hwritten, Hsummary.
  cbn [flat_map] in Hwritten. rewrite app_nil_r in Hwritten.
  split; [exact Hposts|]. split; [exact Hsummary|].
  split; [exact Hwritten|].
  intros Hname Hw. rewrite Hwritten. unfold post_output. rewrite Hname, Hw. reflexivity.
Qed.

Lemma C1_three_entries_witness :
  let A := Sample.post ".post-123" (Some "First post"%string) in
  let B := Sample.comment ".post-456" ".post-123" in
  let C := Sample.post ".page-789" (Some "About"%string) in
  let w := run (Node.env (Parsed (Some [A; B; C])) []) Sample.argv Sample.disk in
  List.filter isPost [A; B; C] = [A] /\
  summaries w = [("/opt/blogger2hugomd/migration-summary.json"%string, summary_json 1)] /\
  List.map fst (written w) = ["out/first post.md"%string].
Proof.
  intros A B C w.
  destruct (C1_three_entries (Node.env (Parsed (Some [A; B; C])) [])
              "node" "script.js" "export.xml" "out" "<feed/>" ".post-123" A B C Sample.disk
              eq_refl eq_refl eq_refl eq_refl eq_refl eq_refl eq_refl)
    as (Hposts & Hsummary & Hwritten & _).
  split; [exact Hposts|]. split; [exact Hsummary|].
  subst w. unfold Sample.argv. rewrite Hwritten. vm_compute. reflexivity.
Defined.

(** C1, as the claim has it, fails: with the title of A a single hyphen, A
    is the one Post and totalPosts is 1, yet no Markdown file is written. *)
Lemma C1_counterexample :
  let A := Sample.post ".post-123" (Some "-"%string) in
  let B := Sample.comment ".post-456" ".post-123" in
  let C := Sample.post ".page-789" (Some "About"%string) in
  let w := run (Node.env (Parsed (Some [A; B; C])) []) Sample.argv Sample.disk in
  ~ (List.filter isPost [A; B; C] = [A] /\
     length (written w) = 1 /\
     summaries w = [("/opt/blogger2hugomd/migration-summary.json"%string, summary_json 1)]).
Proof.
  intros A B C w (_ & Hone & _). vm_compute in Hone. discriminate Hone.
Qed.

Lemma processPost_error (env : Env) (outputDir : string) (entry : Entry) (w0 : World) :
  unusable (getFileName env (displayTitle entry)) = true \/
  writable env (outputPath env outputDir entry) = false ->
  exists evs msg,
    events (after_post env outputDir w0 entry) = events w0 ++ evs ++ [ConsoleError msg] /\
    omap written_by (evs ++ [ConsoleError msg]) = [].
Proof.
  intros Herr. unfold after_post, post_events. cbn [events].
  destruct (unusable (getFileName env (displayTitle entry))).
  - exists [ConsoleLog ("Sanitized title: " +:+ getFileName env (displayTitle entry))].
    eexists. split; reflexivity.
  - destruct Herr as [Herr | Herr]; [discriminate|]. rewrite Herr.
    exists [ConsoleLog ("Sanitized title: " +:+ getFileName env (displayTitle entry));
            FsWriteFile (outputPath env outputDir entry) (fileContent env entry) false].
    eexists. split; reflexivity.
Qed.

(** C8.  An unusable sanitized filename and a failed write of a Post's file
    are dealt with inside the turn of the loop: the turn logs an error, does
    not throw, does not exit, and the loop goes on with the next Post, so
    that every Post gets its turn, every Post with a usable name and a
    writable path gets its file, and the run ends with status 0 once the
    summary is written.  An input file that cannot be read, XML that cannot
    be parsed and a document without [feed.entry] end the run with exit
    status 1, before any Post is handled and without a summary. *)
Theorem C8_error_handling
        (env : Env) (node script input outputDir : string) (fs : gmap string string) :
  let w := run env [node; script; input; outputDir] fs in
  (forall entry rest w0,
     let w1 := snd (processPost env outputDir entry w0) in
     fst (processPost env outputDir entry w0) = Ok tt /\
     exited w1 = exited w0 /\
     forEach (entry :: rest) (processPost env outputDir) w0 =
     forEach rest (processPost env outputDir) w1 /\
     (unusable (getFileName env (displayTitle entry)) = true \/
      writable env (outputPath env outputDir entry) = false ->
      written w1 = written w0 /\
      exists evs msg, events w1 = events w0 ++ evs ++ [ConsoleError msg])) /\
  (forall data contents,
     fs !! input = Some data ->
     parseString env data = Parsed (Some contents) ->
     stats_posts w = List.map post_stat (List.filter isPost contents) /\
     (forall e, In e (List.filter isPost contents) ->
        unusable (getFileName env (displayTitle e)) = false ->
        writable env (outputPath env outputDir e) = true ->
        In (outputPath env outputDir e, fileContent env e) (written w)) /\
     (writable env (summary_path env) = true -> exited w = None /\ exit_status w = 0)) /\
  (feed_error env input fs ->
     exited w = Some 1 /\ exit_status w = 1 /\
     written w = [] /\ summaries w = [] /\ stats_posts w = [] /\ files w = fs).
Proof.
  intros w. split; [|split].
  - intros entry rest w0 w1. subst w1. rewrite processPost_run. cbn [fst snd].
    split; [reflexivity|]. split; [reflexivity|]. split.
    + cbn [forEach]. unfold mbind, M_bind. rewrite processPost_run. reflexivity.
    + intros Herr.
      destruct (processPost_error env outputDir entry w0 Herr) as (evs & msg & Hev & Hnone).
      split; [|exists evs, msg; exact Hev].
      rewrite (written_app w0 _ _ Hev), Hnone. apply app_nil_r.
  - intros data contents Hread Hparse.
    destruct (run_feed env node script input outputDir data [] contents fs Hread Hparse)
      as (Hstats & Hwritten & _ & Hexit).
    fold w in Hstats, Hwritten, Hexit.
    split; [exact Hstats|]. split.
    + intros e He Hname Hw. rewrite Hwritten. apply in_flat_map. exists e.
      split; [exact He|]. unfold post_output. rewrite Hname, Hw. left; reflexivity.
    + intros Hw. unfold exit_status. rewrite Hexit, Hw. split; reflexivity.
  - intros Herr.
    destruct (run_feed_error env node script input outputDir [] fs Herr)
      as (msg & Hev & Hexit & Hfiles & Hstats).
    fold w in Hev, Hexit, Hfiles, Hstats.
    unfold exit_status, written, summaries. rewrite Hexit, Hev.
    repeat split; assumption.
Qed.

Lemma C8_error_handling_witness :
  let broken := Sample.post "tag:blogger.com,1999:blog-7.post-1" (Some "..."%string) in
  let locked := Sample.post "tag:blogger.com,1999:blog-7.post-2" (Some "Locked"%string) in
  let fine := Sample.post "tag:blogger.com,1999:blog-7.post-3" (Some "Fine"%string) in
  let env := Node.env (Parsed (Some [broken; locked; fine])) ["out/locked.md"%string] in
  let w := run env Sample.argv Sample.disk in
  In ("out/fine.md"%string, fileContent env fine) (written w) /\
  exit_status w = 0 /\
  exit_status (run env ["node"; "script.js"; "missing.xml"; "out"]%string Sample.disk) = 1 /\
  exit_status (run (Node.env (ParseFailure "Unclosed root tag") [])
                 Sample.argv Sample.disk) = 1 /\
  exit_status (run (Node.env (Parsed None) []) Sample.argv Sample.disk) = 1.
Proof.
  intros broken locked fine env w.
  destruct (C8_error_handling env "node" "script.js" "export.xml" "out" Sample.disk)
    as (_ & Hfeed & _).
  destruct (Hfeed "<feed/>"%string [broken; locked; fine] eq_refl eq_refl)
    as (_ & Hfile & Hexit).
  split; [apply (Hfile fine); [right; right; left; reflexivity | reflexivity | reflexivity]|].
  split; [apply Hexit; reflexivity|].
  split; [|split].
  - apply (C8_error_handling env "node" "script.js" "missing.xml" "out" Sample.disk).
    left. reflexivity.
  - apply (C8_error_handling (Node.env (ParseFailure "Unclosed root tag") [])
             "node" "script.js" "export.xml" "out" Sample.disk).
    right. left. exists "<feed/>"%string, "Unclosed root tag"%string. split; reflexivity.
  - apply (C8_error_handling (Node.env (Parsed None) [])
             "node" "script.js" "export.xml" "out" Sample.disk).
    right. right. exists "<feed/>"%string. split; reflexivity.
Defined.

(** C9.  Started with fewer than two arguments after the script's own
    path, the script prints the usage line and exits with status 1; it makes
    no call to the file system and leaves every file as it was. *)
Theorem C9_usage_exit
        (env : Env) (node script : string) (args : list string) (fs : gmap string string) :
  length args < 2 ->
  let w := run env (node :: script :: args) fs in
  events w = [ConsoleLog usage] /\
  exited w = Some 1 /\
  exit_status w = 1 /\
  List.filter is_fs_event (events w) = [] /\
  files w = fs.
Proof.
  intros Hargs w. subst w. unfold run, main.
  assert (Hlen : (length (node :: script :: args) <? 4) = true)
    by (apply Nat.ltb_lt; simpl; lia).
  rewrite Hlen. repeat split.
Qed.

Lemma C9_usage_exit_witness :
  let w := run (Node.env (ParseFailure "") []) ["node"; "script.js"; "export.xml"]%string
               Sample.disk in
  events w = [ConsoleLog usage] /\ exit_status w = 1 /\ files w = Sample.disk.
Proof.
  intros w.
  destruct (C9_usage_exit (Node.env (ParseFailure "") []) "node" "script.js"
              ["export.xml"%string] Sample.disk) as (Hev & _ & Hexit & _ & Hfiles);
    [simpl; lia|].
  split; [exact Hev|]. split; [exact Hexit | exact Hfiles].
Defined.

(** * Further properties of the script *)

(** ** [getFileName]: how its steps compose *)

Lemma lower_char_space (c : ascii) : is_space (lower_char c) = is_space c.
Proof. each_code_unit c. Qed.

Lemma squeeze_twice (b1 b2 : bool) (s : string) :
  (b1 = true -> b2 = true) ->
  squeeze is_hyphen "-" b2 (squeeze invalid_char "-" b1 s) =
  squeeze invalid_or_hyphen "-" b2 s.
Proof.
  revert b1 b2. induction s as [|c s' IH]; intros b1 b2 Hb; [reflexivity|].
  cbn [squeeze]. unfold invalid_or_hyphen at 1.
  destruct (invalid_char c) eqn:Hi.
  - assert (Hh : is_hyphen c = false).
    { destruct (is_hyphen c) eqn:Hh; [|reflexivity].
      apply Ascii.eqb_eq in Hh. subst c. discriminate Hi. }
    cbn [orb]. destruct b1.
    + rewrite (Hb eq_refl). apply IH. reflexivity.
    + change ("-" +:+ squeeze invalid_char "-" true s')
        with (String hyphen (squeeze invalid_char "-" true s')).
      cbn [squeeze]. change (is_hyphen hyphen) with true. cbn iota.
      destruct b2; rewrite IH by reflexivity; reflexivity.
  - cbn [orb squeeze]. destruct (is_hyphen c).
    + destruct b2; rewrite IH by discriminate; reflexivity.
    + rewrite IH by discriminate. reflexivity.
Qed.

Lemma drop_start_toLowerCase (r : ascii -> bool) (s : string) :
  (forall c, r (lower_char c) = r c) ->
  drop_start r (toLowerCase s) = toLowerCase (drop_start r s).
Proof.
  intros Hr. induction s as [|c s' IH]; [reflexivity|].
  cbn [toLowerCase drop_start]. rewrite Hr. destruct (r c); [exact IH | reflexivity].
Qed.

Lemma drop_end_toLowerCase (r : ascii -> bool) (s : string) :
  (forall c, r (lower_char c) = r c) ->
  drop_end r (toLowerCase s) = toLowerCase (drop_end r s).
Proof.
  intros Hr. induction s as [|c s' IH]; [reflexivity|].
  cbn [toLowerCase drop_end]. rewrite IH, Hr.
  destruct (drop_end r s') as [|d t]; [destruct (r c)|]; reflexivity.
Qed.

Lemma drop_start_starts (r : ascii -> bool) (s : string) :
  starts r (drop_start r s) = false.
Proof.
  induction s as [|c s' IH]; [reflexivity|].
  cbn [drop_start]. destruct (r c) eqn:Hc; [exact IH | exact Hc].
Qed.

Lemma drop_start_fixed (r : ascii -> bool) (s : string) :
  starts r s = false -> drop_start r s = s.
Proof. destruct s as [|c s']; [reflexivity|]. cbn. intros ->. reflexivity. Qed.

Lemma drop_end_idempotent (r : ascii -> bool) (s : string) :
  drop_end r (drop_end r s) = drop_end r s.
Proof.
  induction s as [|c s' IH]; [reflexivity|].
  cbn [drop_end]. destruct (drop_end r s') as [|d t] eqn:Hd.
  - destruct (r c) eqn:Hc; [reflexivity|]. cbn. rewrite Hc. reflexivity.
  - cbn [drop_end] in IH |- *. rewrite IH. reflexivity.
Qed.

Lemma trim_idempotent (s : string) : trim (trim s) = trim s.
Proof.
  unfold trim. set (z := drop_start is_space s).
  assert (Hz : starts is_space z = false) by apply drop_start_starts.
  rewrite (drop_start_fixed is_space (drop_end is_space z)).
  - apply drop_end_idempotent.
  - destruct (drop_end is_space z) as [|d t] eqn:Hd; [reflexivity|].
    cbn [starts]. rewrite <- (drop_end_starts is_space is_space z d t Hd). exact Hz.
Qed.

Lemma trim_toLowerCase (s : string) : trim (toLowerCase s) = toLowerCase (trim s).
Proof.
  unfold trim.
  rewrite drop_start_toLowerCase, drop_end_toLowerCase by apply lower_char_space.
  reflexivity.
Qed.

Lemma squeeze_fixed (p : ascii -> bool) (repl : string) (b : bool) (s : string) :
  all_chars (fun c => negb (p c)) s = true -> squeeze p repl b s = s.
Proof.
  revert b. induction s as [|c s' IH]; intros b H; [reflexivity|].
  cbn [all_chars] in H. apply andb_true_iff in H. destruct H as [Hc Hs].
  cbn [squeeze]. destruct (p c); [discriminate Hc|]. rewrite IH by exact Hs. reflexivity.
Qed.

Lemma squeeze_hyphens_fixed (b : bool) (s : string) :
  no_adjacent is_hyphen s = true ->
  (b = true -> starts is_hyphen s = false) ->
  squeeze is_hyphen "-" b s = s.
Proof.
  revert b. induction s as [|c s' IH]; intros b Hs Hb; [reflexivity|].
  rewrite no_adjacent_cons in Hs. apply andb_true_iff in Hs. destruct Hs as [Hc Hs].
  cbn [squeeze]. destruct (is_hyphen c) eqn:Hh.
  - destruct b; [specialize (Hb eq_refl); cbn in Hb; congruence|].
    cbn [andb] in Hc. apply negb_true_iff in Hc.
    rewrite (IH true Hs (fun _ => Hc)).
    apply Ascii.eqb_eq in Hh. subst c. reflexivity.
  - rewrite (IH false Hs) by discriminate. reflexivity.
Qed.

(** X1.  The two [replace] calls of [getFileName] act together as one pass
    over what [sanitize-filename] returns: every maximal run of code units
    that are invalid characters or hyphens, in any mix, becomes one hyphen,
    and every other code unit stays; the name is that, trimmed and
    lowercased. *)
Theorem X1_replaces_compose (env : Env) (text : string) :
  replace_runs 2 is_hyphen "-" (replace_runs 1 invalid_char "-" (sanitize env text)) =
  squeeze invalid_or_hyphen "-" false (sanitize env text) /\
  getFileName env text =
  toLowerCase (trim (squeeze invalid_or_hyphen "-" false (sanitize env text))).
Proof.
  assert (H : forall s,
    replace_runs 2 is_hyphen "-" (replace_runs 1 invalid_char "-" s) =
    squeeze invalid_or_hyphen "-" false s).
  { intros s. rewrite replace_runs_plus, replace_runs_hyphens.
    apply squeeze_twice. discriminate. }
  split; [apply H|]. unfold getFileName, normalize. rewrite H. reflexivity.
Qed.

(** X2.  A name [getFileName] produced is a fixed point of the script's own
    steps: trimming it again changes nothing (it neither starts nor ends
    with white space), and so does running both replaces, the trim and the
    lowercasing over it once more. *)
Theorem X2_name_is_normal (env : Env) (text : string) :
  trim (getFileName env text) = getFileName env text /\
  normalize (getFileName env text) = getFileName env text.
Proof.
  unfold getFileName. set (s := sanitize env text).
  assert (Htrim : trim (normalize s) = normalize s).
  { unfold normalize. rewrite trim_toLowerCase, trim_idempotent. reflexivity. }
  split; [exact Htrim|].
  rewrite (normalize_squeeze (normalize s)).
  rewrite (squeeze_fixed invalid_char) by apply normalize_valid.
  rewrite squeeze_hyphens_fixed by (apply normalize_hyphens_apart || discriminate).
  rewrite Htrim. unfold normalize. apply toLowerCase_idempotent.
Qed.

(** ** The identifier: classification and the recorded post id *)

Lemma str_In_app (c : ascii) (a b : string) :
  str_In c (a +:+ b) <-> str_In c a \/ str_In c b.
Proof.
  induction a as [|x a' IH].
  - cbn. tauto.
  - change (x = c \/ str_In c (a' +:+ b) <-> (x = c \/ str_In c a') \/ str_In c b).
    rewrite IH. tauto.
Qed.

Lemma includes_unfold (needle s : string) :
  includes needle s =
  String.prefix needle s ||
  match s with
  | EmptyString => false
  | String _ s' => includes needle s'
  end.
Proof. destruct s; cbn [includes]; destruct (String.prefix needle _); reflexivity. Qed.

Lemma includes_substring (needle s : string) :
  includes needle s = true <-> exists a b, s = a +:+ needle +:+ b.
Proof.
  split.
  - induction s as [|c s' IH]; rewrite includes_unfold, orb_true_iff;
      intros [Hp | Hi].
    + apply prefix_app in Hp. destruct Hp as [b Hb]. exists ""%string, b. exact Hb.
    + discriminate Hi.
    + apply prefix_app in Hp. destruct Hp as [b Hb]. exists ""%string, b. exact Hb.
    + destruct (IH Hi) as (a & b & Hab). exists (String c a), b. rewrite Hab. reflexivity.
  - intros (a & b & Hab). revert s Hab. induction a as [|c a' IH]; intros s Hab.
    + rewrite includes_unfold. apply orb_true_iff. left. apply prefix_app.
      exists b. exact Hab.
    + subst s. rewrite includes_unfold. apply orb_true_iff. right.
      apply (IH _ eq_refl).
Qed.

(** X3.  An entry is kept as a Post exactly when its identifier holds the
    marker [.post-] somewhere, at any position, and the entry has no
    [thr:in-reply-to] element: a comment is never a Post, whatever its
    identifier, and neither is an entry whose identifier lacks the marker. *)
Theorem X3_isPost_iff (entry : Entry) :
  isPost entry = true <->
  (exists a b, entry_id entry = a +:+ ".post-" +:+ b) /\
  entry_in_reply_to entry = None.
Proof.
  unfold isPost. rewrite andb_true_iff, includes_substring, negb_true_iff.
  rewrite bool_decide_eq_false.
  destruct (entry_in_reply_to entry) as [r|].
  - split; intros [H1 H2]; [exfalso; apply H2; eauto | discriminate H2].
  - split; intros [H1 _]; split; try exact H1; try reflexivity.
    intros [x Hx]. discriminate Hx.
Qed.

Lemma last_segment_spec (sep : ascii) (s acc : string) :
  ~ str_In sep acc ->
  let r := last_segment_from sep acc s in
  ~ str_In sep r /\
  ((~ str_In sep s /\ r = acc +:+ s) \/
   (exists pre, acc +:+ s = pre +:+ str1 sep +:+ r)).
Proof.
  revert acc. induction s as [|c s' IH]; intros acc Hacc r; subst r.
  - cbn [last_segment_from]. split; [exact Hacc|].
    left. split; [intros []|]. symmetry. apply append_empty_r.
  - cbn [last_segment_from]. destruct (Ascii.eqb c sep) eqn:Hc.
    + apply Ascii.eqb_eq in Hc. subst c.
      destruct (IH ""%string (fun H => H)) as [Hr Hcase]. split; [exact Hr|].
      right. destruct Hcase as [[_ Heq] | [pre Hpre]].
      * exists acc. rewrite Heq. reflexivity.
      * exists (acc +:+ String sep pre). rewrite append_assoc.
        change ("" +:+ s') with s' in Hpre. f_equal.
        change (String sep s' =
                String sep (pre +:+ str1 sep +:+ last_segment_from sep "" s')).
        f_equal. exact Hpre.
    + apply Ascii.eqb_neq in Hc.
      assert (Hacc' : ~ str_In sep (acc +:+ str1 c)).
      { rewrite str_In_app. intros [H | [H | []]]; [exact (Hacc H) | exact (Hc H)]. }
      destruct (IH _ Hacc') as [Hr Hcase]. split; [exact Hr|].
      rewrite append_assoc in Hcase. destruct Hcase as [[Hno Heq] | Hpre].
      * left. split; [|exact Heq]. intros [H | H]; [exact (Hc H) | exact (Hno H)].
      * right. exact Hpre.
Qed.

(** X4.  The id the loop records for a Post on [stats.posts] is the part
    of the entry identifier after its last hyphen: it holds no hyphen, and
    the identifier is some prefix, a hyphen, and the id; when the identifier
    has no hyphen at all the id is the whole identifier. *)
Theorem X4_postId_last_segment (env : Env) (outputDir : string) (entry : Entry) (w : World) :
  let postId := split_pop hyphen (entry_id entry) in
  stats_posts (snd (processPost env outputDir entry w)) =
    stats_posts w ++ [(displayTitle entry, postId)] /\
  ~ str_In hyphen postId /\
  ((~ str_In hyphen (entry_id entry) /\ postId = entry_id entry) \/
   (exists pre, entry_id entry = pre +:+ "-" +:+ postId)).
Proof.
  intros postId. split; [rewrite processPost_run; reflexivity|].
  exact (last_segment_spec hyphen (entry_id entry) ""%string (fun H => H)).
Qed.

(** ** The title: escaping loses nothing *)

Lemma escape_injective (t1 t2 : string) : escape t1 = escape t2 -> t1 = t2.
Proof.
  revert t2. induction t1 as [|c1 t1' IH]; intros [|c2 t2'] H.
  - reflexivity.
  - destruct (escape_not_empty c2 t2') as (x & y & Hxy).
    rewrite Hxy in H. discriminate H.
  - destruct (escape_not_empty c1 t1') as (x & y & Hxy).
    rewrite Hxy in H. discriminate H.
  - rewrite !escape_cons in H.
    destruct (is_squote c1) eqn:H1, (is_squote c2) eqn:H2.
    + apply is_squote_true in H1, H2. subst c1 c2.
      inversion H as [Ht]. rewrite (IH _ Ht). reflexivity.
    + inversion H as [[Hc Ht]]. subst c2. discriminate H2.
    + inversion H as [[Hc Ht]]. subst c1. discriminate H1.
    + inversion H as [[Hc Ht]]. rewrite (IH _ Ht). reflexivity.
Qed.

(** X5.  Doubling the quotes loses nothing: two entries whose titles have
    text get the same title in the front-matter only when their titles are
    the same text. *)
Theorem X5_titles_stay_apart (e1 e2 : Entry) (t1 t2 : string) :
  entry_title e1 = Some t1 -> t1 <> ""%string ->
  entry_title e2 = Some t2 -> t2 <> ""%string ->
  displayTitle e1 = displayTitle e2 -> t1 = t2.
Proof.
  intros H1 N1 H2 N2.
  rewrite (displayTitle_text e1 t1 H1 N1), (displayTitle_text e2 t2 H2 N2).
  apply escape_injective.
Qed.

Lemma X5_titles_stay_apart_witness :
  let e1 := Sample.post ".post-1" (Some "It's here"%string) in
  let e2 := Sample.post ".post-2" (Some "It's here"%string) in
  displayTitle e1 = displayTitle e2 /\ "It's here"%string = "It's here"%string.
Proof.
  intros e1 e2. split; [reflexivity|].
  apply (X5_titles_stay_apart e1 e2);
    [reflexivity | discriminate | reflexivity | discriminate | reflexivity].
Defined.

(** ** The run: what it calls, what it writes, what it leaves alone *)

Lemma filter_flat_map {A B} (f : B -> bool) (g : A -> list B) (l : list A) :
  List.filter f (flat_map g l) = flat_map (fun x => List.filter f (g x)) l.
Proof.
  induction l as [|x l' IH]; simpl; [reflexivity|].
  rewrite List.filter_app, IH. reflexivity.
Qed.

Lemma post_events_fs (env : Env) (outputDir : string) (entry : Entry) :
  List.filter is_fs_event (post_events env outputDir entry) =
  post_attempt env outputDir entry.
Proof.
  unfold post_events, post_attempt.
  destruct (unusable _); [reflexivity|]. destruct (writable env _); reflexivity.
Qed.

(** X6.  A run on a readable, parsable feed calls the file system in one
    fixed order and no more: it reads the input once, creates the output
    directory once, then makes one [writeFile] call for each Post with a
    usable name, in feed order, none for the others, and last of all hands
    the summary to [writeFileSync].  Command-line arguments after the second
    change nothing. *)
Theorem X6_fs_calls_in_order
        (env : Env) (node script input outputDir data : string) (more : list string)
        (contents : list Entry) (fs : gmap string string) :
  fs !! input = Some data ->
  parseString env data = Parsed (Some contents) ->
  let posts := List.filter isPost contents in
  let w := run env (node :: script :: input :: outputDir :: more) fs in
  List.filter is_fs_event (events w) =
    FsReadFile input :: FsMkdir outputDir ::
    flat_map (post_attempt env outputDir) posts ++
    [FsWriteFileSync (summary_path env) (summary_json (length posts))
       (writable env (summary_path env))].
Proof.
  intros Hread Hparse posts w. subst w. rewrite run_import.
  destruct (bloggerImport_feed env input outputDir data contents (boot fs) Hread Hparse)
    as (_ & _ & Hev & _).
  fold posts in Hev. rewrite Hev. cbn [boot events stats_posts length app Nat.add].
  unfold import_events, mkdir_events, summary_events.
  rewrite !List.filter_app, filter_flat_map.
  rewrite (flat_map_ext_eq _ _ posts (post_events_fs env outputDir)).
  destruct (mkdir_ok env outputDir), (writable env (summary_path env)); reflexivity.
Qed.

Lemma X6_fs_calls_in_order_witness :
  let comment := Sample.comment "tag:blogger.com,1999:blog-7.post-9" "post-1" in
  let w := run (Node.env (Parsed (Some [comment])) [])
               ["node"; "script.js"; "export.xml"; "out"; "m"]%string Sample.disk in
  List.filter is_fs_event (events w) =
    [FsReadFile "export.xml"; FsMkdir "out";
     FsWriteFileSync "/opt/blogger2hugomd/migration-summary.json" (summary_json 0) true].
Proof.
  exact (X6_fs_calls_in_order
           (Node.env (Parsed (Some [Sample.comment "tag:blogger.com,1999:blog-7.post-9" "post-1"])) [])
           "node" "script.js" "export.xml" "out" "<feed/>" ["m"%string]
           [Sample.comment "tag:blogger.com,1999:blog-7.post-9" "post-1"] Sample.disk
           eq_refl eq_refl).
Defined.

(** X7.  Every Markdown file a run writes is the file of one classified
    Post with a usable name, at that Post's path and with that Post's
    content, and every such Post whose write succeeds is among the files
    written: nothing is written for a comment, for an entry without the
    marker, or under an empty or single-hyphen name. *)
Theorem X7_written_iff
        (env : Env) (node script input outputDir data : string) (more : list string)
        (contents : list Entry) (fs : gmap string string) (path content : string) :
  fs !! input = Some data ->
  parseString env data = Parsed (Some contents) ->
  let w := run env (node :: script :: input :: outputDir :: more) fs in
  In (path, content) (written w) <->
  exists entry,
    In entry contents /\ isPost entry = true /\
    unusable (getFileName env (displayTitle entry)) = false /\
    writable env (outputPath env outputDir entry) = true /\
    path = outputPath env outputDir entry /\
    content = fileContent env entry.
Proof.
  intros Hread Hparse w.
  destruct (run_feed env node script input outputDir data more contents fs Hread Hparse)
    as (_ & Hwritten & _).
  fold w in Hwritten. rewrite Hwritten, in_flat_map. split.
  - intros (e & He & Hin). apply filter_In in He. destruct He as [He Hpost].
    exists e. unfold post_output in Hin.
    destruct (unusable _); [destruct Hin|].
    destruct (writable env _); [|destruct Hin].
    destruct Hin as [Heq | []]. inversion Heq. auto 10.
  - intros (e & He & Hpost & Hname & Hw & -> & ->). exists e.
    split; [apply filter_In; auto|].
    unfold post_output. rewrite Hname, Hw. left. reflexivity.
Qed.

Lemma X7_written_iff_witness :
  let post := Sample.post "tag:blogger.com,1999:blog-7.post-3" (Some "Fine"%string) in
  let env := Node.env (Parsed (Some [post])) [] in
  exists entry,
    In entry [post] /\ isPost entry = true /\
    unusable (getFileName env (displayTitle entry)) = false /\
    writable env (outputPath env "out" entry) = true /\
    "out/fine.md"%string = outputPath env "out" entry /\
    fileContent env post = fileContent env entry.
Proof.
  intros post env.
  apply (X7_written_iff env "node" "script.js" "export.xml" "out" "<feed/>" []
           [post] Sample.disk "out/fine.md" (fileContent env post) eq_refl eq_refl).
  vm_compute. left. reflexivity.
Defined.

Lemma post_files_other (env : Env) (outputDir : string) (entry : Entry)
      (fs : gmap string string) (p : string) :
  outputPath env outputDir entry <> p ->
  post_files env outputDir entry fs !! p = fs !! p.
Proof.
  intros Hne. unfold post_files.
  destruct (unusable _); [reflexivity|].
  destruct (writable env _); [|reflexivity].
  apply lookup_insert_ne. exact Hne.
Qed.

Lemma fold_post_files_other (env : Env) (outputDir : string) (posts : list Entry)
      (fs : gmap string string) (p : string) :
  (forall e, In e posts -> outputPath env outputDir e <> p) ->
  fold_left (fun fs e => post_files env outputDir e fs) posts fs !! p = fs !! p.
Proof.
  revert fs. induction posts as [|x rest IH]; intros fs Hne; [reflexivity|].
  cbn [fold_left]. rewrite IH by (intros e He; apply Hne; right; exact He).
  apply post_files_other. apply Hne. left. reflexivity.
Qed.

Lemma summary_insert_other (env : Env) (total : nat) (fs : gmap string string) (p : string) :
  p <> summary_path env ->
  (if writable env (summary_path env)
   then <[summary_path env := summary_json total]>
   else fun fs => fs) fs !! p = fs !! p.
Proof.
  intros Hne. destruct (writable env (summary_path env)); [|reflexivity].
  apply lookup_insert_ne. congruence.
Qed.

(** X8.  When several Posts sanitize to the same file name the last one in
    feed order wins: after the run the file holds the content of the Post
    that wrote to the path last, whatever earlier Posts wrote there. *)
Theorem X8_last_writer_wins
        (env : Env) (node script input outputDir data : string) (more : list string)
        (contents : list Entry) (fs : gmap string string)
        (earlier later : list Entry) (entry : Entry) :
  fs !! input = Some data ->
  parseString env data = Parsed (Some contents) ->
  List.filter isPost contents = earlier ++ entry :: later ->
  unusable (getFileName env (displayTitle entry)) = false ->
  writable env (outputPath env outputDir entry) = true ->
  (forall e, In e later -> outputPath env outputDir e <> outputPath env outputDir entry) ->
  outputPath env outputDir entry <> summary_path env ->
  let w := run env (node :: script :: input :: outputDir :: more) fs in
  files w !! outputPath env outputDir entry = Some (fileContent env entry).
Proof.
  intros Hread Hparse Hposts Hname Hw Hlater Hsum w. subst w. rewrite run_import.
  destruct (bloggerImport_feed env input outputDir data contents (boot fs) Hread Hparse)
    as (_ & _ & _ & _ & Hfiles).
  rewrite Hfiles, summary_insert_other by exact Hsum.
  rewrite Hposts, fold_left_app. cbn [fold_left].
  rewrite fold_post_files_other by exact Hlater.
  unfold post_files at 1. rewrite Hname, Hw. apply lookup_insert_eq.
Qed.

Lemma X8_last_writer_wins_witness :
  let first := Sample.post "tag:blogger.com,1999:blog-7.post-1" (Some "Same Title"%string) in
  let second :=
    {| entry_id := "tag:blogger.com,1999:blog-7.post-2";
       entry_title := Some "same title"%string;
       entry_published := "2022-02-02T00:00:00.000Z";
       entry_in_reply_to := None; entry_app_draft := None;
       entry_content := Some "Second"%string; entry_category := None |} in
  let env := Node.env (Parsed (Some [first; second])) [] in
  outputPath env "out" first = outputPath env "out" second /\
  files (run env Sample.argv Sample.disk) !! "out/same title.md"%string =
  Some (fileContent env second).
Proof.
  intros first second env. split; [vm_compute; reflexivity|].
  apply (X8_last_writer_wins env "node" "script.js" "export.xml" "out" "<feed/>" []
           [first; second] Sample.disk [first] [] second);
    try reflexivity; try (vm_compute; discriminate).
  intros e [].
Defined.

(** ** The run: what ends it and how *)

Lemma feed_cases (env : Env) (input : string) (fs : gmap string string) :
  feed_error env input fs \/
  exists data contents,
    fs !! input = Some data /\ parseString env data = Parsed (Some contents).
Proof.
  unfold feed_error. destruct (fs !! input) as [data|] eqn:Hread; [|left; left; reflexivity].
  destruct (parseString env data) as [msg | [contents|]] eqn:Hparse.
  - left. right. left. exists data, msg. split; [reflexivity | exact Hparse].
  - right. exists data, contents. split; [reflexivity | exact Hparse].
  - left. right. right. exists data. split; [reflexivity | exact Hparse].
Qed.

(** X10.  A failure to create the output directory is not fatal:
    [ensureDirectoryExists] never throws, never exits and changes no file;
    in a run it logs the error and the import goes on as it would have, with
    every Post taking its turn, every Post with a usable name and a writable
    path written, the summary handed over, and exit status 0 when the summary
    is written. *)
Theorem X10_mkdir_failure_not_fatal
        (env : Env) (node script input outputDir data : string) (more : list string)
        (contents : list Entry) (fs : gmap string string) :
  (forall w0,
     fst (ensureDirectoryExists env outputDir w0) = Ok tt /\
     files (snd (ensureDirectoryExists env outputDir w0)) = files w0 /\
     stats_posts (snd (ensureDirectoryExists env outputDir w0)) = stats_posts w0 /\
     exited (snd (ensureDirectoryExists env outputDir w0)) = exited w0) /\
  (fs !! input = Some data ->
   parseString env data = Parsed (Some contents) ->
   mkdir_ok env outputDir = false ->
   let posts := List.filter isPost contents in
   let w := run env (node :: script :: input :: outputDir :: more) fs in
   (exists msg,
      In (ConsoleError ("Error creating directory " +:+ outputDir +:+ ": " +:+ msg))
         (events w)) /\
   stats_posts w = List.map post_stat posts /\
   summaries w = [(summary_path env, summary_json (length posts))] /\
   (forall e, In e posts ->
      unusable (getFileName env (displayTitle e)) = false ->
      writable env (outputPath env outputDir e) = true ->
      In (outputPath env outputDir e, fileContent env e) (written w)) /\
   (writable env (summary_path env) = true -> exit_status w = 0)).
Proof.
  split.
  - intros w0. unfold ensureDirectoryExists, try_catch, fs_mkdir, console_error, emit.
    cbn. destruct (mkdir_ok env outputDir); repeat split.
  - intros Hread Hparse Hmk posts w.
    destruct (run_feed env node script input outputDir data more contents fs Hread Hparse)
      as (Hstats & Hwritten & Hsummary & Hexit).
    fold posts in Hstats, Hwritten, Hsummary. fold w in Hstats, Hwritten, Hsummary, Hexit.
    split; [|split; [exact Hstats | split; [exact Hsummary | split]]].
    + destruct (bloggerImport_feed env input outputDir data contents (boot fs) Hread Hparse)
        as (_ & _ & Hev & _).
      eexists. subst w. rewrite run_import, Hev.
      unfold import_events, mkdir_events. rewrite Hmk.
      cbn [boot events app]. right. right. right. left. reflexivity.
    + intros e He Hname Hw. rewrite Hwritten. apply in_flat_map. exists e.
      split; [exact He|]. unfold post_output. rewrite Hname, Hw. left. reflexivity.
    + intros Hw. unfold exit_status. rewrite Hexit, Hw. reflexivity.
Qed.

Lemma X10_mkdir_failure_not_fatal_witness :
  let post := Sample.post "tag:blogger.com,1999:blog-7.post-3" (Some "Fine"%string) in
  let node := Node.env (Parsed (Some [post])) [] in
  let env :=
    {| sanitize := sanitize node; turndown := turndown node;
       parseString := parseString node; path_join := path_join node;
       dirname := dirname node; mkdir_ok := fun _ => false;
       writable := writable node |} in
  let w := run env Sample.argv Sample.disk in
  In ("out/fine.md"%string, fileContent env post) (written w) /\ exit_status w = 0.
Proof.
  intros post node env w.
  destruct (X10_mkdir_failure_not_fatal env "node" "script.js" "export.xml" "out" "<feed/>"
              [] [post] Sample.disk) as [_ Hrun].
  destruct (Hrun eq_refl eq_refl eq_refl) as (_ & _ & _ & Hfile & Hexit).
  split; [|apply Hexit; reflexivity].
  apply (Hfile post); [left; reflexivity | reflexivity | reflexivity].
Defined.

(** X11.  With two arguments or more the run ends with status 0 exactly
    when the input was read, parsed into a document with [feed.entry], and
    the summary was written; otherwise it ends with status 1.  A summary
    that cannot be written is caught by the same handler as a feed error: the
    run then ends with status 1 although every Post has had its turn and the
    files of the Posts stay written. *)
Theorem X11_exit_status
        (env : Env) (node script input outputDir : string) (more : list string)
        (fs : gmap string string) :
  let w := run env (node :: script :: input :: outputDir :: more) fs in
  (exit_status w = 0 <->
   exists data contents,
     fs !! input = Some data /\
     parseString env data = Parsed (Some contents) /\
     writable env (summary_path env) = true) /\
  (exit_status w = 0 \/ exit_status w = 1) /\
  (forall data contents,
     fs !! input = Some data ->
     parseString env data = Parsed (Some contents) ->
     writable env (summary_path env) = false ->
     exit_status w = 1 /\
     stats_posts w = List.map post_stat (List.filter isPost contents) /\
     (forall e, In e (List.filter isPost contents) ->
        unusable (getFileName env (displayTitle e)) = false ->
        writable env (outputPath env outputDir e) = true ->
        In (outputPath env outputDir e, fileContent env e) (written w)) /\
     exists msg,
       In (ConsoleError ("Error processing Blogger export: " +:+ msg)) (events w)).
Proof.
  intros w.
  assert (Hok : forall data contents,
    fs !! input = Some data -> parseString env data = Parsed (Some contents) ->
    exit_status w = (if writable env (summary_path env) then 0 else 1)).
  { intros data contents Hread Hparse.
    destruct (run_feed env node script input outputDir data more contents fs Hread Hparse)
      as (_ & _ & _ & Hexit).
    fold w in Hexit. unfold exit_status. rewrite Hexit.
    destruct (writable env (summary_path env)); reflexivity. }
  assert (Herr : feed_error env input fs -> exit_status w = 1).
  { intros H. destruct (run_feed_error env node script input outputDir more fs H)
      as (msg & _ & Hexit & _).
    fold w in Hexit. unfold exit_status. rewrite Hexit. reflexivity. }
  split; [|split].
  - split.
    + intros Hzero. destruct (feed_cases env input fs) as [Hfe | (data & contents & Hr & Hp)].
      * rewrite (Herr Hfe) in Hzero. discriminate Hzero.
      * exists data, contents. split; [exact Hr|]. split; [exact Hp|].
        rewrite (Hok data contents Hr Hp) in Hzero.
        destruct (writable env (summary_path env)); [reflexivity | discriminate Hzero].
    + intros (data & contents & Hr & Hp & Hw). rewrite (Hok data contents Hr Hp), Hw.
      reflexivity.
  - destruct (feed_cases env input fs) as [Hfe | (data & contents & Hr & Hp)].
    + right. exact (Herr Hfe).
    + rewrite (Hok data contents Hr Hp).
      destruct (writable env (summary_path env)); [left | right]; reflexivity.
  - intros data contents Hread Hparse Hw.
    destruct (run_feed env node script input outputDir data more contents fs Hread Hparse)
      as (Hstats & Hwritten & _ & _).
    fold w in Hstats, Hwritten.
    split; [rewrite (Hok data contents Hread Hparse), Hw; reflexivity|].
    split; [exact Hstats|]. split.
    + intros e He Hname Hwr. rewrite Hwritten. apply in_flat_map. exists e.
      split; [exact He|]. unfold post_output. rewrite Hname, Hwr. left. reflexivity.
    + destruct (bloggerImport_feed env input outputDir data contents (boot fs) Hread Hparse)
        as (_ & _ & Hev & _).
      eexists. subst w. rewrite run_import, Hev.
      unfold import_events, summary_events. rewrite Hw.
      rewrite !in_app_iff. right. right. right. right. right. left. reflexivity.
Qed.

Lemma X11_exit_status_witness :
  let post := Sample.post "tag:blogger.com,1999:blog-7.post-3" (Some "Fine"%string) in
  let env := Node.env (Parsed (Some [post]))
                      ["/opt/blogger2hugomd/migration-summary.json"%string] in
  let w := run env Sample.argv Sample.disk in
  exit_status w = 1 /\ In ("out/fine.md"%string, fileContent env post) (written w).
Proof.
  intros post env w.
  destruct (X11_exit_status env "node" "script.js" "export.xml" "out" [] Sample.disk)
    as (_ & _ & Hsummary).
  destruct (Hsummary "<feed/>"%string [post] eq_refl eq_refl eq_refl)
    as (Hexit & _ & Hfile & _).
  split; [exact Hexit|].
  apply (Hfile post); [left; reflexivity | reflexivity | reflexivity].
Defined.

(** X12.  On a feed-level error the read of the input is the only call to
    the file system: the output directory is not created, nothing is
    written, and the console gets one error line.  For a document without
    [feed.entry] that line carries the message Invalid Blogger export file. *)
Theorem X12_feed_error_touches_nothing
        (env : Env) (node script input outputDir : string) (more : list string)
        (fs : gmap string string) :
  feed_error env input fs ->
  let w := run env (node :: script :: input :: outputDir :: more) fs in
  List.filter is_fs_event (events w) = [FsReadFile input] /\
  (exists msg,
     events w =
       [FsReadFile input; ConsoleError ("Error processing Blogger export: " +:+ msg)]) /\
  ((exists data, fs !! input = Some data /\ parseString env data = Parsed None) ->
   events w =
     [FsReadFile input;
      ConsoleError "Error processing Blogger export: Invalid Blogger export file"]).
Proof.
  intros Herr w.
  destruct (run_feed_error env node script input outputDir more fs Herr)
    as (msg & Hev & _).
  fold w in Hev. split; [rewrite Hev; reflexivity|]. split; [exists msg; exact Hev|].
  intros (data & Hread & Hparse). subst w. rewrite run_import.
  unfold bloggerImport, try_catch, mbind, M_bind, fs_readFile, emit, parse,
    console_error, process_exit, emit, throw.
  cbn. rewrite Hread. cbn. rewrite Hparse. reflexivity.
Qed.

Lemma X12_feed_error_touches_nothing_witness :
  events (run (Node.env (Parsed None) []) Sample.argv Sample.disk) =
  [FsReadFile "export.xml";
   ConsoleError "Error processing Blogger export: Invalid Blogger export file"].
Proof.
  assert (Herr : feed_error (Node.env (Parsed None) []) "export.xml" Sample.disk).
  { right. right. exists "<feed/>"%string. split; reflexivity. }
  destruct (X12_feed_error_touches_nothing (Node.env (Parsed None) [])
              "node" "script.js" "export.xml" "out" [] Sample.disk Herr)
    as (_ & _ & Hmsg).
  apply Hmsg. exists "<feed/>"%string. split; reflexivity.
Defined.

(** X13.  The number the console announces and the number in the summary
    agree: the script takes the first from [posts.length] and the second from
    [stats.posts.length], and the loop pushes exactly one record per Post on
    an accumulator that starts empty, so both are the number of entries the
    filter kept. *)
Theorem X13_found_equals_total
        (env : Env) (node script input outputDir data : string) (more : list string)
        (contents : list Entry) (fs : gmap string string) :
  fs !! input = Some data ->
  parseString env data = Parsed (Some contents) ->
  let n := length (List.filter isPost contents) in
  let w := run env (node :: script :: input :: outputDir :: more) fs in
  (exists rest,
     events w =
       FsReadFile input :: ConsoleLog ("Found " +:+ of_nat n +:+ " posts") :: rest) /\
  length (stats_posts w) = n /\
  summaries w = [(summary_path env, summary_json n)].
Proof.
  intros Hread Hparse n w.
  destruct (run_feed env node script input outputDir data more contents fs Hread Hparse)
    as (Hstats & _ & Hsummary & _).
  fold w in Hstats, Hsummary. fold n in Hsummary.
  split; [|split; [rewrite Hstats; apply length_map | exact Hsummary]].
  destruct (bloggerImport_feed env input outputDir data contents (boot fs) Hread Hparse)
    as (_ & _ & Hev & _).
  eexists. subst w. rewrite run_import, Hev. reflexivity.
Qed.

Lemma X13_found_equals_total_witness :
  let post := Sample.post "tag:blogger.com,1999:blog-7.post-3" (Some "???"%string) in
  let env := Node.env (Parsed (Some [post; Sample.comment ".post-4" ".post-3"])) [] in
  let w := run env Sample.argv Sample.disk in
  In (ConsoleLog "Found 1 posts") (events w) /\
  summaries w = [("/opt/blogger2hugomd/migration-summary.json"%string, summary_json 1)].
Proof.
  intros post env w.
  destruct (X13_found_equals_total env "node" "script.js" "export.xml" "out" "<feed/>" []
              [post; Sample.comment ".post-4" ".post-3"] Sample.disk eq_refl eq_refl)
    as ((rest & Hev) & _ & Hsummary).
  split; [|exact Hsummary].
  subst w. unfold Sample.argv. rewrite Hev. right. left. reflexivity.
Defined.
